(** * Solana / SAID tools of nanobot: a shallow embedding and its properties

    Source: [nanobot/agent/tools/solana.py].  Six tool classes share the
    interface [name], [description], [parameters], [execute]; every [execute]
    performs one outbound HTTP request (or a scan of local files) and returns
    a Python [str].

    The embedding follows the source line by line.  Python exceptions are an
    error monad; the library calls whose results come from outside the program
    ([os.getenv], [urllib.request.urlopen], [resp.read().decode()],
    [json.loads], [Path.cwd], [Path.home], [Path.exists], [open], [f.read])
    are fields of a [world] record, each with the exceptions it can raise, so
    that every statement quantifies over all behaviours of the environment.  Floats are IEEE-754 binary64 values of the Standard Library's
    [SpecFloat]. *)

From Stdlib Require Import ZArith String List Bool Lia Ascii DecimalString.
From Stdlib Require Import Floats.SpecFloat.
Import ListNotations.
Open Scope Z_scope.
Open Scope string_scope.
#[local] Set Warnings "-register-all".

(** ** Exceptions and the error monad *)

(** Exception objects of class [Exception], the class every handler of the
    source names.  [urllib.error.HTTPError] is kept apart because two handlers
    select it and read its [code]; it carries the status code, the reason
    phrase and the body of the error response, which no tool reads.  Every
    other exception is known to the tools only through [str(e)]. *)
Inductive exn : Type :=
| HTTPError (code : Z) (msg : string) (body : string)
| Exc (cls : string) (msg : string).

Definition decimal (n : Z) : string := NilZero.string_of_int (Z.to_int n).

(** [str(e)].  [HTTPError.__str__] is ['HTTP Error %s: %s' % (code, msg)]. *)
Definition str_exn (e : exn) : string :=
  match e with
  | HTTPError code msg _ => "HTTP Error " ++ decimal code ++ ": " ++ msg
  | Exc _ msg => msg
  end.

Definition M (A : Type) : Type := (exn + A)%type.

Definition ret {A : Type} (a : A) : M A := inr a.
Definition raise {A : Type} (e : exn) : M A := inl e.

Definition bind {A B : Type} (m : M A) (k : A -> M B) : M B :=
  match m with
  | inl e => inl e
  | inr a => k a
  end.

(** [try: body  except Exception as e: handler e]. *)
Definition try_except {A : Type} (body : M A) (handler : exn -> M A) : M A :=
  match body with
  | inl e => handler e
  | inr a => inr a
  end.

Notation "x <- m ;; k" := (bind m (fun x => k))
  (at level 61, m at next level, right associativity).

(** ** Python values *)

Definition prec : Z := 53.
Definition emax : Z := 1024.

(** The values [json.loads] produces and [json.dumps] accepts.  A dict keeps
    its items in insertion order; JSON object keys are strings. *)
Inductive pyval : Type :=
| PyNone
| PyBool (b : bool)
| PyInt (n : Z)
| PyFloat (f : spec_float)
| PyStr (s : string)
| PyList (xs : list pyval)
| PyDict (items : list (string * pyval)).

(** [type(v).__name__]. *)
Definition type_name (v : pyval) : string :=
  match v with
  | PyNone => "NoneType"
  | PyBool _ => "bool"
  | PyInt _ => "int"
  | PyFloat _ => "float"
  | PyStr _ => "str"
  | PyList _ => "list"
  | PyDict _ => "dict"
  end.

Fixpoint dict_lookup (k : string) (items : list (string * pyval)) : option pyval :=
  match items with
  | [] => None
  | (k', v) :: rest => if String.eqb k k' then Some v else dict_lookup k rest
  end.

Definition has_key (k : string) (items : list (string * pyval)) : bool :=
  match dict_lookup k items with
  | Some _ => true
  | None => false
  end.

(** [needle in hay] for two strings. *)
Fixpoint str_contains (needle hay : string) : bool :=
  if prefix needle hay then true
  else match hay with
       | EmptyString => false
       | String _ rest => str_contains needle rest
       end.

Definition is_str (k : string) (v : pyval) : bool :=
  match v with
  | PyStr s => String.eqb k s
  | _ => false
  end.

(** [k in v] for a string literal [k]: key test on a dict, element test on a
    list, substring test on a str, [TypeError] on the other types.  The
    messages of the interpreter's exceptions are those of CPython 3.11 to
    3.13. *)
Definition py_contains (k : string) (v : pyval) : M bool :=
  match v with
  | PyDict items => ret (has_key k items)
  | PyList xs => ret (existsb (is_str k) xs)
  | PyStr s => ret (str_contains k s)
  | _ => raise (Exc "TypeError"
                  ("argument of type '" ++ type_name v ++ "' is not iterable"))
  end.

(** [v[k]] for a string literal [k]. *)
Definition py_getitem (v : pyval) (k : string) : M pyval :=
  match v with
  | PyDict items =>
      match dict_lookup k items with
      | Some x => ret x
      | None => raise (Exc "KeyError" ("'" ++ k ++ "'"))
      end
  | PyList _ =>
      raise (Exc "TypeError" "list indices must be integers or slices, not str")
  | PyStr _ =>
      raise (Exc "TypeError" "string indices must be integers, not 'str'")
  | _ => raise (Exc "TypeError"
                  ("'" ++ type_name v ++ "' object is not subscriptable"))
  end.

(** [v.get(k, default)]: only a dict has the method. *)
Definition py_get (v : pyval) (k : string) (default : pyval) : M pyval :=
  match v with
  | PyDict items =>
      match dict_lookup k items with
      | Some x => ret x
      | None => ret default
      end
  | _ => raise (Exc "AttributeError"
                  ("'" ++ type_name v ++ "' object has no attribute 'get'"))
  end.

(** ** True division *)

(** [a / b] for two ints with [b > 0]: the quotient rounded once to the
    nearest binary64, ties to even; a quotient beyond the finite range raises
    [OverflowError]. *)
Definition int_truediv (a : Z) (b : positive) : M spec_float :=
  match a with
  | Z0 => ret (S754_zero false)
  | _ =>
      let '(q, e, l) :=
        SFdiv_core_binary prec emax (Z.abs a) 0 (Zpos b) 0 in
      match binary_round_aux prec emax (Z.ltb a 0) q e l with
      | S754_infinity _ =>
          raise (Exc "OverflowError"
                   "integer division result too large for a float")
      | f => ret f
      end
  end.

(** [v / b] for an int literal [b > 0], as in [lamports / 1_000_000_000]. *)
Definition py_truediv (v : pyval) (b : positive) : M pyval :=
  match v with
  | PyInt n => f <- int_truediv n b ;; ret (PyFloat f)
  | PyBool t => f <- int_truediv (if t then 1 else 0) b ;; ret (PyFloat f)
  | PyFloat x =>
      ret (PyFloat (SFdiv prec emax x (binary_normalize prec emax (Zpos b) 0 false)))
  | _ => raise (Exc "TypeError"
                  ("unsupported operand type(s) for /: '" ++ type_name v
                   ++ "' and 'int'"))
  end.

(** ** The environment *)

(** A [str] handed over by a tool (a return value, or a request body before
    [.encode()]): either [json.dumps(v)] for a Python value [v], kept as the
    value that is serialised, or characters received from outside and passed
    on as they are.  The two forms record how the text was made, not what it
    is: a [verbatim] text can hold the very characters of some
    [json.dumps(v)], and [json.dumps] writes a NaN or an infinity as a token
    that is not JSON. *)
Inductive text : Type :=
| json_dumps (v : pyval)
| verbatim (s : string).

(** [urllib.request.Request(url, data=..., headers=..., method=...)]. *)
Record Request : Type := {
  full_url : string;
  data : option text;
  headers : list (string * string);
  method : option string
}.

(** [Request.get_method()]. *)
Definition get_method (req : Request) : string :=
  match method req, data req with
  | Some m, _ => m
  | None, Some _ => "POST"
  | None, None => "GET"
  end.

(** The object [urlopen] returns; it returns one only for a 2xx status.
    [read_decode] is [resp.read().decode()]. *)
Record response : Type := {
  status : Z;
  read_decode : M string
}.

(** [pathlib.Path] as its components; [p / c] appends one. *)
Definition Path : Type := list string.
Definition joinpath (p : Path) (c : string) : Path := (p ++ [c])%list.

(** The object [open(path)] returns. *)
Record file : Type := { read : M string }.

(** What the outside answers to each library call.  [urlopen] takes the
    request and the timeout in seconds and stands for building the request
    and opening it; a URL that is refused, a timeout, a refused connection or
    a DNS failure is an [Exc], a non-2xx status an [HTTPError].  [cwd] is
    [Path.cwd()] and [home] is [Path.home()], which raises [RuntimeError]
    when no home directory can be determined; [path_exists] is
    [Path.exists()], which answers [True] or [False] or raises the [OSError]
    of the underlying [stat] (permission denied on a directory of the path,
    a name too long). *)
Record world : Type := {
  getenv : string -> option string;
  urlopen : Request -> Z -> M response;
  json_loads : string -> M pyval;
  cwd : M Path;
  home : M Path;
  path_exists : Path -> M bool;
  open_file : Path -> M file
}.

(** [os.getenv(key, default)]. *)
Definition os_getenv (w : world) (key default : string) : string :=
  match getenv w key with
  | Some v => v
  | None => default
  end.

(** [urlopen(url, timeout=...)] with a bare URL. *)
Definition url_request (url : string) : Request :=
  {| full_url := url; data := None; headers := []; method := None |}.

(** ** The tools *)

Definition SAID_API : string := "https://api.saidprotocol.com".

Inductive Tool : Type :=
| GetBalanceTool
| VerifyAgentTool
| LookupAgentTool
| GetTrustScoreTool
| RegisterAgentTool
| GetMyIdentityTool.

Definition name (t : Tool) : string :=
  match t with
  | GetBalanceTool => "get_sol_balance"
  | VerifyAgentTool => "verify_said_agent"
  | LookupAgentTool => "lookup_said_agent"
  | GetTrustScoreTool => "get_trust_score"
  | RegisterAgentTool => "register_said_agent"
  | GetMyIdentityTool => "get_my_said_identity"
  end.

Definition SOLANA_TOOLS : list Tool :=
  [GetBalanceTool; VerifyAgentTool; LookupAgentTool; GetTrustScoreTool;
   RegisterAgentTool; GetMyIdentityTool].

Section Tools.

Variable w : world.

(** *** GetBalanceTool *)

Definition GetBalanceTool_request (address : string) : Request :=
  let rpc_url :=
    os_getenv w "SOLANA_RPC_URL" "https://api.mainnet-beta.solana.com" in
  let payload :=
    json_dumps (PyDict [("jsonrpc", PyStr "2.0");
                        ("id", PyInt 1);
                        ("method", PyStr "getBalance");
                        ("params", PyList [PyStr address])]) in
  {| full_url := rpc_url;
     data := Some payload;
     headers := [("Content-Type", "application/json")];
     method := None |}.

Definition GetBalanceTool_execute (address : string) : M text :=
  try_except
    (let req := GetBalanceTool_request address in
     resp <- urlopen w req 10 ;;
     body <- read_decode resp ;;
     data <- json_loads w body ;;
     found <- py_contains "result" data ;;
     if (found : bool) then
       result <- py_getitem data "result" ;;
       lamports <- py_getitem result "value" ;;
       sol <- py_truediv lamports 1000000000 ;;
       ret (json_dumps (PyDict [("address", PyStr address);
                                ("balance_sol", sol);
                                ("balance_lamports", lamports)]))
     else
       err <- py_get data "error" (PyStr "Unknown error") ;;
       ret (json_dumps (PyDict [("error", err)])))
    (fun e => ret (json_dumps (PyDict [("error", PyStr (str_exn e))]))).

(** *** VerifyAgentTool *)

Definition agents_url (wallet : string) : string :=
  SAID_API ++ "/api/agents/" ++ wallet.

Definition VerifyAgentTool_execute (wallet : string) : M text :=
  try_except
    (let url := agents_url wallet in
     resp <- urlopen w (url_request url) 10 ;;
     body <- read_decode resp ;;
     agent <- json_loads w body ;;
     name_ <- py_get agent "name" PyNone ;;
     wallet_ <- py_get agent "wallet" PyNone ;;
     pda <- py_get agent "pda" PyNone ;;
     isVerified <- py_get agent "isVerified" PyNone ;;
     reputationScore <- py_get agent "reputationScore" PyNone ;;
     description <- py_get agent "description" PyNone ;;
     ret (json_dumps
            (PyDict [("verified", PyBool true);
                     ("name", name_);
                     ("wallet", wallet_);
                     ("pda", pda);
                     ("isVerified", isVerified);
                     ("reputationScore", reputationScore);
                     ("description", description);
                     ("profile",
                      PyStr ("https://www.saidprotocol.com/agent.html?wallet="
                             ++ wallet))])))
    (fun e =>
       match e with
       | HTTPError code _ _ =>
           if Z.eqb code 404 then
             ret (json_dumps
                    (PyDict [("verified", PyBool false);
                             ("error", PyStr "Agent not found in SAID registry")]))
           else
             ret (json_dumps (PyDict [("verified", PyBool false);
                                      ("error", PyStr (str_exn e))]))
       | _ =>
           ret (json_dumps (PyDict [("verified", PyBool false);
                                    ("error", PyStr (str_exn e))]))
       end).

(** *** LookupAgentTool *)

Definition LookupAgentTool_execute (wallet : string) : M text :=
  try_except
    (let url := agents_url wallet in
     resp <- urlopen w (url_request url) 10 ;;
     body <- read_decode resp ;;
     ret (verbatim body))
    (fun e =>
       match e with
       | HTTPError code _ _ =>
           if Z.eqb code 404 then
             ret (json_dumps (PyDict [("error", PyStr "Agent not found")]))
           else
             ret (json_dumps (PyDict [("error", PyStr (str_exn e))]))
       | _ => ret (json_dumps (PyDict [("error", PyStr (str_exn e))]))
       end).

(** *** GetTrustScoreTool *)

Definition trust_url (wallet : string) : string :=
  SAID_API ++ "/api/trust/" ++ wallet.

Definition GetTrustScoreTool_execute (wallet : string) : M text :=
  try_except
    (let url := trust_url wallet in
     resp <- urlopen w (url_request url) 10 ;;
     body <- read_decode resp ;;
     ret (verbatim body))
    (fun e => ret (json_dumps (PyDict [("error", PyStr (str_exn e))]))).

(** *** RegisterAgentTool *)

(** [description or f"{name} - AI Agent"]: the empty string is false. *)
Definition description_or_default (name description : string) : string :=
  match description with
  | EmptyString => name ++ " - AI Agent"
  | _ => description
  end.

(** The keyword default [description: str = ""]. *)
Definition description_arg (description : option string) : string :=
  match description with
  | Some d => d
  | None => ""
  end.

Definition RegisterAgentTool_payload
    (wallet name : string) (description : option string) : pyval :=
  PyDict [("wallet", PyStr wallet);
          ("name", PyStr name);
          ("description",
           PyStr (description_or_default name (description_arg description)))].

Definition RegisterAgentTool_request
    (wallet name : string) (description : option string) : Request :=
  let url := SAID_API ++ "/api/register/pending" in
  let payload := json_dumps (RegisterAgentTool_payload wallet name description) in
  {| full_url := url;
     data := Some payload;
     headers := [("Content-Type", "application/json")];
     method := Some "POST" |}.

Definition RegisterAgentTool_execute
    (wallet name : string) (description : option string) : M text :=
  try_except
    (let req := RegisterAgentTool_request wallet name description in
     resp <- urlopen w req 10 ;;
     body <- read_decode resp ;;
     result <- json_loads w body ;;
     wallet_ <- py_get result "wallet" PyNone ;;
     pda <- py_get result "pda" PyNone ;;
     profile <- py_get result "profile" PyNone ;;
     ret (json_dumps (PyDict [("success", PyBool true);
                              ("wallet", wallet_);
                              ("pda", pda);
                              ("profile", profile);
                              ("status", PyStr "PENDING")])))
    (fun e => ret (json_dumps (PyDict [("success", PyBool false);
                                       ("error", PyStr (str_exn e))]))).

(** *** GetMyIdentityTool *)

(** [__init__]: [self.workspace = workspace or Path.cwd()]. *)
Definition GetMyIdentityTool_init (workspace : option Path) : M Path :=
  match workspace with
  | Some p => ret p
  | None => cwd w
  end.

(** The list [paths]: its three elements are evaluated, [Path.home()] twice,
    before the loop starts. *)
Definition GetMyIdentityTool_paths (workspace : Path) : M (list Path) :=
  let first := joinpath workspace "said.json" in
  h <- home w ;;
  let second := joinpath (joinpath h ".nanobot") "said.json" in
  h' <- home w ;;
  let third := joinpath (joinpath (joinpath h' ".config") "said") "identity.json" in
  ret [first; second; third].

(** [with open(path) as f: return f.read()]. *)
Definition open_and_read (path : Path) : M string :=
  f <- open_file w path ;; read f.

(** The [for] loop: [Some s] when an iteration returns [s], [None] when the
    loop runs to its end.  [path.exists()] is called outside the [try], so
    what it raises leaves the loop; what [open] or [read] raises is caught
    and the loop goes on. *)
Fixpoint GetMyIdentityTool_scan (paths : list Path) : M (option string) :=
  match paths with
  | [] => ret None
  | path :: rest =>
      found <- path_exists w path ;;
      if (found : bool) then
        match open_and_read path with
        | inr s => ret (Some s)
        | inl _ => GetMyIdentityTool_scan rest
        end
      else GetMyIdentityTool_scan rest
  end.

Definition identity_not_found : text :=
  json_dumps
    (PyDict [("error",
              PyStr "SAID identity not found. Register first with register_said_agent.")]).

Definition GetMyIdentityTool_execute (workspace : Path) : M text :=
  paths <- GetMyIdentityTool_paths workspace ;;
  returned <- GetMyIdentityTool_scan paths ;;
  match returned with
  | Some s => ret (verbatim s)
  | None => ret identity_not_found
  end.

(** *** Calling a tool *)

(** A tool together with the arguments of one call of its [execute]. *)
Inductive call : Type :=
| GetBalance (address : string)
| VerifyAgent (wallet : string)
| LookupAgent (wallet : string)
| GetTrustScore (wallet : string)
| RegisterAgent (wallet name : string) (description : option string)
| GetMyIdentity (workspace : Path).

Definition tool_of (c : call) : Tool :=
  match c with
  | GetBalance _ => GetBalanceTool
  | VerifyAgent _ => VerifyAgentTool
  | LookupAgent _ => LookupAgentTool
  | GetTrustScore _ => GetTrustScoreTool
  | RegisterAgent _ _ _ => RegisterAgentTool
  | GetMyIdentity _ => GetMyIdentityTool
  end.

Definition execute (c : call) : M text :=
  match c with
  | GetBalance address => GetBalanceTool_execute address
  | VerifyAgent wallet => VerifyAgentTool_execute wallet
  | LookupAgent wallet => LookupAgentTool_execute wallet
  | GetTrustScore wallet => GetTrustScoreTool_execute wallet
  | RegisterAgent wallet name description =>
      RegisterAgentTool_execute wallet name description
  | GetMyIdentity workspace => GetMyIdentityTool_execute workspace
  end.

(** The request a network tool sends. *)
Definition request_of (c : call) : option Request :=
  match c with
  | GetBalance address => Some (GetBalanceTool_request address)
  | VerifyAgent wallet => Some (url_request (agents_url wallet))
  | LookupAgent wallet => Some (url_request (agents_url wallet))
  | GetTrustScore wallet => Some (url_request (trust_url wallet))
  | RegisterAgent wallet name description =>
      Some (RegisterAgentTool_request wallet name description)
  | GetMyIdentity _ => None
  end.

End Tools.

(** ** Vocabulary of the statements *)

(** Whether [json.dumps(v)] is JSON: it is unless [v] holds a NaN or an
    infinity, which [json.dumps] writes as [NaN] and [Infinity]. *)
Fixpoint strict_json (v : pyval) : bool :=
  match v with
  | PyFloat (S754_nan) | PyFloat (S754_infinity _) => false
  | PyList xs => forallb strict_json xs
  | PyDict items => forallb (fun kv => strict_json (snd kv)) items
  | _ => true
  end.

(** The JSON value a text stands for: [json.dumps(v)] stands for [v] when it
    is JSON; text from outside stands for what [json.loads] makes of it. *)
Definition denotes (w : world) (t : text) (v : pyval) : Prop :=
  match t with
  | json_dumps v' => v' = v /\ strict_json v' = true
  | verbatim s => json_loads w s = inr v
  end.

(** A well-formed JSON document that is an object with an [error] field. *)
Definition error_document (w : world) (t : text) : Prop :=
  exists items, denotes w t (PyDict items) /\ has_key "error" items = true.

(** The field that the verification and registration tools set to [false]
    next to [error]. *)
Definition failure_flag (t : Tool) : option string :=
  match t with
  | VerifyAgentTool => Some "verified"
  | RegisterAgentTool => Some "success"
  | _ => None
  end.

Definition flagged_false (w : world) (t : text) (flag : option string) : Prop :=
  match flag with
  | Some k =>
      exists items,
        denotes w t (PyDict items) /\ dict_lookup k items = Some (PyBool false)
  | None => True
  end.

(** [dict.get(k)]: the value, or [None]. *)
Definition dict_get (k : string) (items : list (string * pyval)) : pyval :=
  match dict_lookup k items with
  | Some v => v
  | None => PyNone
  end.

(** The request is answered (status 2xx) and the body is read and decoded. *)
Definition answered (w : world) (req : Request) (body : string) : Prop :=
  exists resp, urlopen w req 10 = inr resp /\ read_decode resp = inr body.

(** The request is answered and the body parses to [v]. *)
Definition answered_json (w : world) (req : Request) (v : pyval) : Prop :=
  exists body, answered w req body /\ json_loads w body = inr v.

(** The ways a request fails: [urlopen] raises (transport fault, timeout,
    HTTP error status); reading or decoding the body raises; the body is not
    JSON. *)
Definition request_fault (w : world) (req : Request) (e : exn) : Prop :=
  urlopen w req 10 = inl e.

Definition read_fault (w : world) (req : Request) (e : exn) : Prop :=
  exists resp, urlopen w req 10 = inr resp /\ read_decode resp = inl e.

Definition malformed_json (w : world) (req : Request) (e : exn) : Prop :=
  exists body, answered w req body /\ json_loads w body = inl e.

(** A candidate file that yields no content: [exists()] answers [False], or
    it answers [True] and [open] or [read] raises. *)
Definition unavailable (w : world) (p : Path) : Prop :=
  path_exists w p = inr false
  \/ (path_exists w p = inr true /\ exists e, open_and_read w p = inl e).

(** A candidate file for which [exists()] answers [True] and which is opened
    and read. *)
Definition available (w : world) (p : Path) (content : string) : Prop :=
  path_exists w p = inr true /\ open_and_read w p = inr content.

(** The tools that parse the response body; the other two network tools hand
    it on unread. *)
Definition parses_body (t : Tool) : bool :=
  match t with
  | GetBalanceTool | VerifyAgentTool | RegisterAgentTool => true
  | LookupAgentTool | GetTrustScoreTool | GetMyIdentityTool => false
  end.

(** No candidate identity file yields content: the candidates are
    determined and each is missing or unreadable. *)
Definition no_identity_file (w : world) (workspace : Path) : Prop :=
  exists paths,
    GetMyIdentityTool_paths w workspace = inr paths
    /\ Forall (unavailable w) paths.

(** A failure of a call, as the specification lists them. *)
Definition failure (w : world) (c : call) : Prop :=
  match request_of w c, c with
  | Some req, _ =>
      exists e, request_fault w req e \/ read_fault w req e
                \/ malformed_json w req e
  | None, GetMyIdentity workspace => no_identity_file w workspace
  | None, _ => False
  end.

(** The failures a tool can notice: a malformed body only where the tool
    parses it. *)
Definition noticed_failure (w : world) (c : call) : Prop :=
  match request_of w c, c with
  | Some req, _ =>
      exists e, request_fault w req e \/ read_fault w req e
                \/ (parses_body (tool_of c) = true /\ malformed_json w req e)
  | None, GetMyIdentity workspace => no_identity_file w workspace
  | None, _ => False
  end.

(** ** Replies of the handlers *)

(** What the handlers make of an exception. *)
Definition is_404 (e : exn) : bool :=
  match e with
  | HTTPError code _ _ => Z.eqb code 404
  | Exc _ _ => false
  end.

Definition error_only (message : string) : text :=
  json_dumps (PyDict [("error", PyStr message)]).

Definition not_verified (message : string) : text :=
  json_dumps (PyDict [("verified", PyBool false); ("error", PyStr message)]).

Definition not_registered (message : string) : text :=
  json_dumps (PyDict [("success", PyBool false); ("error", PyStr message)]).

(** The reply of each network tool when the body of its [try] raises [e]. *)
Definition handled (c : call) (e : exn) : text :=
  match c with
  | GetBalance _ | GetTrustScore _ => error_only (str_exn e)
  | VerifyAgent _ =>
      not_verified (if is_404 e then "Agent not found in SAID registry"
                    else str_exn e)
  | LookupAgent _ =>
      error_only (if is_404 e then "Agent not found" else str_exn e)
  | RegisterAgent _ _ _ => not_registered (str_exn e)
  | GetMyIdentity _ => identity_not_found
  end.

(** ** Sample environments *)

Definition no_such_file (p : Path) : M file :=
  raise (Exc "FileNotFoundError" "[Errno 2] No such file or directory").

(** No files, no environment variables; [urlopen] answers every request with
    [answer] and [json.loads] is [loads]. *)
Definition network (answer : M response) (loads : string -> M pyval) : world :=
  {| getenv := fun _ => None;
     urlopen := fun _ _ => answer;
     json_loads := loads;
     cwd := ret ["srv"; "bot"];
     home := ret ["home"; "bot"];
     path_exists := fun _ => ret false;
     open_file := no_such_file |}.

Definition ok (body : string) : M response :=
  ret {| status := 200; read_decode := ret body |}.

Definition not_json (s : string) : M pyval :=
  raise (Exc "JSONDecodeError" "Expecting value: line 1 column 1 (char 0)").

(** [json.loads] on the one body of a scenario. *)
Definition loads_of (body : string) (v : pyval) (s : string) : M pyval :=
  if String.eqb s body then ret v else not_json s.

(** A gateway page served with status 200. *)
Definition html_world : world :=
  network (ok "<html>Bad Gateway</html>") not_json.

(** The connection times out. *)
Definition timeout_world : world :=
  network (raise (Exc "URLError" "<urlopen error timed out>")) not_json.

(** The registry has no record: status 404 with some body. *)
Definition not_found_world (body : string) : world :=
  network (raise (HTTPError 404 "Not Found" body)) not_json.

(** The registry is down: status 503. *)
Definition unavailable_world : world :=
  network (raise (HTTPError 503 "Service Unavailable" "")) not_json.

Definition path_eqb (p q : Path) : bool :=
  if list_eq_dec string_dec p q then true else false.

Fixpoint find_file (files : list (Path * string)) (p : Path) : option string :=
  match files with
  | [] => None
  | (q, content) :: rest => if path_eqb p q then Some content else find_file rest p
  end.

(** A file system with the given readable files and one file that exists but
    cannot be opened; the network is down. *)
Definition disk (files : list (Path * string)) (locked : Path) : world :=
  {| getenv := fun _ => None;
     urlopen := fun _ _ => raise (Exc "URLError" "<urlopen error timed out>");
     json_loads := not_json;
     cwd := ret ["srv"; "bot"];
     home := ret ["home"; "bot"];
     path_exists := fun p =>
       ret (orb (path_eqb p locked)
                (match find_file files p with Some _ => true | None => false end));
     open_file := fun p =>
       if path_eqb p locked then
         raise (Exc "PermissionError" "[Errno 13] Permission denied")
       else match find_file files p with
            | Some content => ret {| read := ret content |}
            | None => no_such_file p
            end |}.

(** [s] between double quotes, for the bodies of the samples. *)
Definition quoted (s : string) : string :=
  String (ascii_of_nat 34) (s ++ String (ascii_of_nat 34) "").

(** The registry answers with a JSON object [agent]. *)
Definition registry_world (body : string) (agent : pyval) : world :=
  network (ok body) (loads_of body agent).

(** The workspace holds no identity file, the one under [~/.nanobot] exists
    but cannot be opened, the one under [~/.config/said] is readable. *)
Definition third_file_world : world :=
  disk [(["home"; "bot"; ".config"; "said"; "identity.json"], "{}")]
       ["home"; "bot"; ".nanobot"; "said.json"].

(** No identity file anywhere. *)
Definition empty_disk : world := network (ok "") not_json.

(** A record named Bot1 that is not verified and has no [pda]. *)
Definition unverified_record_body : string :=
  "{" ++ quoted "name" ++ ": " ++ quoted "Bot1" ++ ", "
      ++ quoted "isVerified" ++ ": false}".

(** An acknowledgement that says the registration was rejected. *)
Definition rejected_body : string :=
  "{" ++ quoted "success" ++ ": false, "
      ++ quoted "status" ++ ": " ++ quoted "REJECTED" ++ ", "
      ++ quoted "wallet" ++ ": " ++ quoted "So1anaWa11et" ++ "}".

(** Whether a parsed body is an object with field [k]. *)
Definition has_field (k : string) (v : pyval) : bool :=
  match v with
  | PyDict items => has_key k items
  | _ => false
  end.

(** The endpoint answers with the JSON array [[]]. *)
Definition array_world : world :=
  network (ok "[]") (loads_of "[]" (PyList [])).

(** A JSON-RPC error object. *)
Definition invalid_params : pyval :=
  PyDict [("code", PyInt (-32602)); ("message", PyStr "Invalid param")].

(** A JSON-RPC answer that carries both members, [result] being [null]. *)
Definition null_result_body : string :=
  "{" ++ quoted "jsonrpc" ++ ": " ++ quoted "2.0" ++ ", "
      ++ quoted "result" ++ ": null, "
      ++ quoted "error" ++ ": {" ++ quoted "code" ++ ": -32602, "
      ++ quoted "message" ++ ": " ++ quoted "Invalid param" ++ "}, "
      ++ quoted "id" ++ ": 1}".

Definition null_result_world : world :=
  network (ok null_result_body)
    (loads_of null_result_body
       (PyDict [("jsonrpc", PyStr "2.0"); ("result", PyNone);
                ("error", invalid_params); ("id", PyInt 1)])).

(** A JSON-RPC error answer. *)
Definition rpc_error_body : string :=
  "{" ++ quoted "jsonrpc" ++ ": " ++ quoted "2.0" ++ ", "
      ++ quoted "error" ++ ": {" ++ quoted "code" ++ ": -32602, "
      ++ quoted "message" ++ ": " ++ quoted "Invalid param" ++ "}, "
      ++ quoted "id" ++ ": 1}".

Definition rpc_error_world : world :=
  network (ok rpc_error_body)
    (loads_of rpc_error_body
       (PyDict [("jsonrpc", PyStr "2.0"); ("error", invalid_params);
                ("id", PyInt 1)])).

(** An answer that is an object with neither member. *)
Definition bare_body : string :=
  "{" ++ quoted "jsonrpc" ++ ": " ++ quoted "2.0" ++ ", "
      ++ quoted "id" ++ ": 1}".

Definition bare_world : world :=
  network (ok bare_body)
    (loads_of bare_body (PyDict [("jsonrpc", PyStr "2.0"); ("id", PyInt 1)])).

(** The field names of a verification record, in the order of the source. *)
Definition verification_fields : list string :=
  ["verified"; "name"; "wallet"; "pda"; "isVerified"; "reputationScore";
   "description"; "profile"].

(** A [getBalance] answer whose [value] is the integer [lamports]. *)
Definition balance_data (lamports : Z) : pyval :=
  PyDict [("jsonrpc", PyStr "2.0");
          ("result", PyDict [("context", PyDict [("slot", PyInt 1)]);
                             ("value", PyInt lamports)]);
          ("id", PyInt 1)].

Definition balance_body (lamports : Z) : string :=
  "{" ++ quoted "jsonrpc" ++ ": " ++ quoted "2.0" ++ ", "
      ++ quoted "result" ++ ": {" ++ quoted "context" ++ ": {"
      ++ quoted "slot" ++ ": 1}, " ++ quoted "value" ++ ": "
      ++ decimal lamports ++ "}, " ++ quoted "id" ++ ": 1}".

Definition balance_world (lamports : Z) : world :=
  network (ok (balance_body lamports))
    (loads_of (balance_body lamports) (balance_data lamports)).

(** The binary64 value 1.5, that is 3 * 2^51 * 2^-52. *)
Definition one_and_a_half : spec_float := S754_finite false 6755399441055744 (-52).

(** ** Reading a float as a quotient *)

Definition billion : Z := 1000000000.

(** [m * 2^k] lies within half a unit [2^k] of [x / b], with [m] even when
    [x / b] is half-way between two multiples of [2^k], and within a quarter
    of it when [m = 2^52] and [x / b] is below: under a power of two the
    binary64 numbers are twice as dense. *)
Definition half_ulp (m : positive) (k : Z) (x b : Z) : Prop :=
  2 * Z.abs (Zpos m * 2 ^ k * b - x) <= 2 ^ k * b
  /\ (2 * Z.abs (Zpos m * 2 ^ k * b - x) = 2 ^ k * b -> Z.even (Zpos m) = true)
  /\ (Zpos m = 2 ^ 52 -> x < Zpos m * 2 ^ k * b ->
      4 * (Zpos m * 2 ^ k * b - x) <= 2 ^ k * b).

(** [f] is the binary64 number nearest to [a / b], for [0 <= a / b < 2^53]:
    a canonical [m * 2^e] with [e <= 0] such that [|m * 2^e - a / b|] is at
    most [2^e / 2] (written without fractions: [2 * |m*b - a*2^-e| <= b]),
    with [m] even on a tie, and at most [2^e / 4] where the neighbour below
    is that near; [0.0] for [a = 0]. *)
Definition nearest_quotient (f : spec_float) (a b : Z) : Prop :=
  match f with
  | S754_zero false => a = 0
  | S754_finite false m e =>
      bounded prec emax m e = true
      /\ e <= 0
      /\ 2 * Z.abs (Zpos m * b - a * 2 ^ (- e)) <= b
      /\ (2 * Z.abs (Zpos m * b - a * 2 ^ (- e)) = b -> Z.even (Zpos m) = true)
      /\ (Zpos m = 2 ^ 52 -> a * 2 ^ (- e) < Zpos m * b ->
          4 * (Zpos m * b - a * 2 ^ (- e)) <= b)
  | _ => False
  end.

(** ** Descriptors *)

(** The [description] property of each tool. *)
Definition description (t : Tool) : string :=
  match t with
  | GetBalanceTool =>
      "Get SOL balance for a Solana wallet address. Returns balance in SOL."
  | VerifyAgentTool =>
      "Verify if a wallet address is a registered SAID agent. Use before transacting with unknown agents."
  | LookupAgentTool =>
      "Get full SAID profile for an agent by wallet address, including reputation and skills."
  | GetTrustScoreTool =>
      "Get the trust score and trust network for a SAID agent."
  | RegisterAgentTool =>
      "Register a new agent on SAID Protocol with pending status (free, instant)."
  | GetMyIdentityTool =>
      "Get your own SAID identity information from local said.json file."
  end.

(** One entry of a schema's [properties]. *)
Definition string_property (text : string) : pyval :=
  PyDict [("type", PyStr "string"); ("description", PyStr text)].

(** The [parameters] property of each tool. *)
Definition parameters (t : Tool) : pyval :=
  match t with
  | GetBalanceTool =>
      PyDict [("type", PyStr "object");
              ("properties",
               PyDict [("address",
                        string_property "Solana wallet address (base58)")]);
              ("required", PyList [PyStr "address"])]
  | VerifyAgentTool =>
      PyDict [("type", PyStr "object");
              ("properties",
               PyDict [("wallet",
                        string_property "Solana wallet address to verify")]);
              ("required", PyList [PyStr "wallet"])]
  | LookupAgentTool =>
      PyDict [("type", PyStr "object");
              ("properties",
               PyDict [("wallet",
                        string_property "Solana wallet address to lookup")]);
              ("required", PyList [PyStr "wallet"])]
  | GetTrustScoreTool =>
      PyDict [("type", PyStr "object");
              ("properties",
               PyDict [("wallet", string_property "Solana wallet address")]);
              ("required", PyList [PyStr "wallet"])]
  | RegisterAgentTool =>
      PyDict [("type", PyStr "object");
              ("properties",
               PyDict [("wallet", string_property "Solana wallet address");
                       ("name", string_property "Agent name");
                       ("description", string_property "Agent description")]);
              ("required", PyList [PyStr "wallet"; PyStr "name"])]
  | GetMyIdentityTool =>
      PyDict [("type", PyStr "object"); ("properties", PyDict [])]
  end.

(** The parameters of each [execute] after [self], with the default of those
    that have one. *)
Definition signature (t : Tool) : list (string * option pyval) :=
  match t with
  | GetBalanceTool => [("address", None)]
  | VerifyAgentTool | LookupAgentTool | GetTrustScoreTool => [("wallet", None)]
  | RegisterAgentTool =>
      [("wallet", None); ("name", None); ("description", Some (PyStr ""))]
  | GetMyIdentityTool => []
  end.

(** [schema["properties"]] and [schema.get("required", [])] of a schema. *)
Definition properties_of (schema : pyval) : list (string * pyval) :=
  match schema with
  | PyDict items =>
      match dict_lookup "properties" items with
      | Some (PyDict props) => props
      | _ => []
      end
  | _ => []
  end.

Definition required_of (schema : pyval) : list pyval :=
  match schema with
  | PyDict items =>
      match dict_lookup "required" items with
      | Some (PyList names) => names
      | _ => []
      end
  | _ => []
  end.

(** The parameters of a signature that have no default. *)
Definition mandatory (sig : list (string * option pyval)) : list pyval :=
  map (fun p => PyStr (fst p))
      (filter (fun p => match snd p with None => true | Some _ => false end) sig).

(** ** Further vocabulary *)

Definition is_dict (v : pyval) : bool :=
  match v with
  | PyDict _ => true
  | _ => false
  end.

(** [needle] occurs in [s]. *)
Definition occurs_in (needle s : string) : Prop :=
  exists pre post, s = pre ++ needle ++ post.

(** The message of [AttributeError] for [v.get]. *)
Definition no_get (v : pyval) : string :=
  "'" ++ type_name v ++ "' object has no attribute 'get'".

(** ** Further sample environments *)

(** The registry refuses a registration: status 409 with a JSON body. *)
Definition conflict_world : world :=
  network (raise (HTTPError 409 "Conflict" "{}")) not_json.

(** The endpoint answers with the JSON text [null]. *)
Definition null_world : world :=
  network (ok "null") (loads_of "null" PyNone).

(** Whether [v / 1_000_000_000] is defined for the type of [v]. *)
Definition is_number (v : pyval) : bool :=
  match v with
  | PyInt _ | PyBool _ | PyFloat _ => true
  | _ => false
  end.

(** A JSON array that holds the string ["result"]. *)
Definition result_list_world : world :=
  network (ok ("[" ++ quoted "result" ++ "]"))
    (loads_of ("[" ++ quoted "result" ++ "]") (PyList [PyStr "result"])).

(** A [getBalance] answer whose [result] lacks [value]. *)
Definition no_value_body : string :=
  "{" ++ quoted "jsonrpc" ++ ": " ++ quoted "2.0" ++ ", "
      ++ quoted "result" ++ ": {" ++ quoted "context" ++ ": {"
      ++ quoted "slot" ++ ": 1}}, " ++ quoted "id" ++ ": 1}".

Definition no_value_world : world :=
  network (ok no_value_body)
    (loads_of no_value_body
       (PyDict [("jsonrpc", PyStr "2.0");
                ("result", PyDict [("context", PyDict [("slot", PyInt 1)])]);
                ("id", PyInt 1)])).

(** An identity file in the working directory and another under
    [~/.nanobot]. *)
Definition two_files_world : world :=
  disk [(["srv"; "bot"; "said.json"], "{}");
        (["home"; "bot"; ".nanobot"; "said.json"], "[]")]
       ["home"; "bot"; ".config"; "said"; "identity.json"].

(** A [getBalance] answer whose [value] is [v]. *)
Definition value_data (v : pyval) : pyval :=
  PyDict [("jsonrpc", PyStr "2.0");
          ("result", PyDict [("context", PyDict [("slot", PyInt 1)]);
                             ("value", v)]);
          ("id", PyInt 1)].

(** The binary64 value of [10^9]: [8388608000000000 * 2^-23]. *)
Definition billion_float : spec_float :=
  binary_normalize prec emax 1000000000 0 false.

(** The binary64 value 2.0. *)
Definition two_float : spec_float := S754_finite false 4503599627370496 (-51).

(** The binary64 value nearest to [10^-9]. *)
Definition nano_float : spec_float := S754_finite false 4835703278458517 (-82).

(** A [getBalance] answer whose [value] is [v], written [rendered] in the
    body. *)
Definition value_body (rendered : string) : string :=
  "{" ++ quoted "jsonrpc" ++ ": " ++ quoted "2.0" ++ ", "
      ++ quoted "result" ++ ": {" ++ quoted "context" ++ ": {"
      ++ quoted "slot" ++ ": 1}, " ++ quoted "value" ++ ": "
      ++ rendered ++ "}, " ++ quoted "id" ++ ": 1}".

Definition value_world (rendered : string) (v : pyval) : world :=
  network (ok (value_body rendered))
    (loads_of (value_body rendered) (value_data v)).

(** ** The registration request, in the words of the specification *)

(** The POST to the registration endpoint whose payload carries [wallet],
    [name] and the description [text]. *)
Definition registration_post (wallet name text : string) : Request :=
  {| full_url := "https://api.saidprotocol.com/api/register/pending";
     data := Some (json_dumps (PyDict [("wallet", PyStr wallet);
                                       ("name", PyStr name);
                                       ("description", PyStr text)]));
     headers := [("Content-Type", "application/json")];
     method := Some "POST" |}.

(** The [description] of the payload of a request, if it has one. *)
Definition described (req : Request) : string :=
  match data req with
  | Some (json_dumps (PyDict items)) =>
      match dict_lookup "description" items with
      | Some (PyStr text) => text
      | _ => "<no description>"
      end
  | _ => "<no payload>"
  end.

(** A registry that refuses every request and quotes, as the reason, the
    description it was sent. *)
Definition echo_world : world :=
  {| getenv := fun _ => None;
     urlopen := fun req _ => raise (Exc "URLError" (described req));
     json_loads := not_json;
     cwd := ret ["srv"; "bot"];
     home := ret ["home"; "bot"];
     path_exists := fun _ => ret false;
     open_file := no_such_file |}.

(** ** File systems on which the checks themselves raise *)

(** [w], except that [exists()] raises [e] on [p]. *)
Definition barred (w : world) (p : Path) (e : exn) : world :=
  {| getenv := getenv w;
     urlopen := urlopen w;
     json_loads := json_loads w;
     cwd := cwd w;
     home := home w;
     path_exists := fun q => if path_eqb q p then raise e else path_exists w q;
     open_file := open_file w |}.

(** [w], except that no home directory can be determined. *)
Definition homeless (w : world) : world :=
  {| getenv := getenv w;
     urlopen := urlopen w;
     json_loads := json_loads w;
     cwd := cwd w;
     home := raise (Exc "RuntimeError" "Could not determine home directory.");
     path_exists := path_exists w;
     open_file := open_file w |}.

Definition permission_denied : exn :=
  Exc "PermissionError" "[Errno 13] Permission denied: '/srv/bot/said.json'".

(** The workspace directory cannot be searched, so that [exists()] raises on
    [<workspace>/said.json]; the file under [~/.config/said] is readable. *)
Definition locked_directory_world : world :=
  barred third_file_world ["srv"; "bot"; "said.json"] permission_denied.

(** A readable [<workspace>/said.json], and no home directory. *)
Definition homeless_world : world := homeless two_files_world.

(** * Properties *)

(** ** Proof steps *)

Ltac by_handler e :=
  destruct e as [code msg errbody | cls msg]; simpl;
  [ destruct (Z.eqb code 404); reflexivity | reflexivity ].

(** ** Every [execute] returns *)

Lemma try_except_returns {A : Type} (body : M A) (handler : exn -> M A) :
  (forall e, exists a, handler e = inr a) ->
  exists a, try_except body handler = inr a.
Proof.
  intros Hh. destruct body as [e | a]; simpl.
  - apply Hh.
  - now exists a.
Qed.

(** No exception of class [Exception] leaves a network tool, whatever the
    environment does: the [try] of each spans its whole body. *)
Lemma execute_returns (w : world) (c : call) (req : Request) :
  request_of w c = Some req ->
  exists t, execute w c = inr t.
Proof.
  destruct c; simpl; intros Hreq; try discriminate.
  - apply try_except_returns. intros e. eexists. reflexivity.
  - apply try_except_returns. intros [code msg body | cls msg].
    + destruct (Z.eqb code 404); eexists; reflexivity.
    + eexists. reflexivity.
  - apply try_except_returns. intros [code msg body | cls msg].
    + destruct (Z.eqb code 404); eexists; reflexivity.
    + eexists. reflexivity.
  - apply try_except_returns. intros e. eexists. reflexivity.
  - apply try_except_returns. intros e. eexists. reflexivity.
Qed.

Lemma handled_error_document (w : world) (c : call) (e : exn) :
  error_document w (handled c e).
Proof.
  destruct c; simpl; eexists;
    (split; [split; reflexivity | reflexivity]).
Qed.

Lemma handled_flagged_false (w : world) (c : call) (e : exn) :
  flagged_false w (handled c e) (failure_flag (tool_of c)).
Proof.
  destruct c; simpl; try exact I; eexists;
    (split; [split; reflexivity | reflexivity]).
Qed.

(** A fault of the request or of the read reaches the handler of every
    network tool. *)
Lemma fault_handled (w : world) (c : call) (req : Request) (e : exn) :
  request_of w c = Some req ->
  request_fault w req e \/ read_fault w req e ->
  execute w c = inr (handled c e).
Proof.
  intros Hreq Hf.
  destruct c; simpl in Hreq; inversion Hreq; subst req; clear Hreq; simpl;
    unfold GetBalanceTool_execute, VerifyAgentTool_execute,
      LookupAgentTool_execute, GetTrustScoreTool_execute,
      RegisterAgentTool_execute;
    (destruct Hf as [Hu | (resp & Hu & Hr)];
     [ unfold request_fault in Hu; rewrite Hu; simpl
     | rewrite Hu; simpl; rewrite Hr; simpl ]);
    try reflexivity; by_handler e.
Qed.

(** A body that is not JSON reaches the handler of the tools that parse. *)
Lemma malformed_handled (w : world) (c : call) (req : Request) (e : exn) :
  request_of w c = Some req ->
  parses_body (tool_of c) = true ->
  malformed_json w req e ->
  execute w c = inr (handled c e).
Proof.
  intros Hreq Hp (body & (resp & Hu & Hr) & Hl).
  destruct c; simpl in Hreq, Hp; try discriminate;
    inversion Hreq; subst req; clear Hreq; simpl;
    unfold GetBalanceTool_execute, VerifyAgentTool_execute,
      RegisterAgentTool_execute;
    rewrite Hu; simpl; rewrite Hr; simpl; rewrite Hl; simpl;
    try reflexivity; by_handler e.
Qed.

Lemma scan_none (w : world) (paths : list Path) :
  Forall (unavailable w) paths -> GetMyIdentityTool_scan w paths = inr None.
Proof.
  induction 1 as [| p rest Hp _ IH]; simpl.
  - reflexivity.
  - destruct Hp as [Hex | (Hex & e & He)]; rewrite Hex; cbn [bind].
    + exact IH.
    + now rewrite He.
Qed.

(** ** Failures become error documents (C1) *)

(** C1, as amended.  For every tool and every failure the tool can notice
    (the request raises: transport fault, timeout or HTTP error status;
    reading the body raises; the body is not JSON, for the three tools that
    parse it; the candidate identity files are determined and each is
    reported missing or exists and cannot be opened or read), [execute]
    returns, without raising, a JSON document that is an object with an
    [error] field; the verification tool sets [verified], and the
    registration tool [success], to [false] in it.  What the identity tool
    does when [Path.home()] or [Path.exists()] raises is left out here. *)
Theorem noticed_failure_reported (w : world) (c : call) :
  noticed_failure w c ->
  exists t,
    execute w c = inr t
    /\ error_document w t
    /\ flagged_false w t (failure_flag (tool_of c)).
Proof.
  unfold noticed_failure.
  destruct (request_of w c) as [req |] eqn:Hreq.
  - intros (e & H). exists (handled c e). split; [| split].
    + destruct H as [H | [H | (Hp & H)]].
      * apply (fault_handled w c req e Hreq). now left.
      * apply (fault_handled w c req e Hreq). now right.
      * now apply (malformed_handled w c req e Hreq).
    + apply handled_error_document.
    + apply handled_flagged_false.
  - destruct c; simpl in Hreq; try discriminate; try contradiction.
    intros (paths & Hpaths & Hall). exists identity_not_found.
    split; [| split].
    + simpl. unfold GetMyIdentityTool_execute.
      rewrite Hpaths; cbn [bind].
      now rewrite (scan_none w _ Hall).
    + eexists. split; [split; reflexivity | reflexivity].
    + exact I.
Qed.

(** The theorem at a timed-out verification request. *)
Lemma noticed_failure_reported_witness :
  noticed_failure timeout_world (VerifyAgent "So1anaWa11et") /\
  exists t, execute timeout_world (VerifyAgent "So1anaWa11et") = inr t
            /\ error_document timeout_world t
            /\ flagged_false timeout_world t (Some "verified").
Proof.
  assert (H : noticed_failure timeout_world (VerifyAgent "So1anaWa11et")).
  { simpl. eexists. left. reflexivity. }
  split.
  - exact H.
  - apply (noticed_failure_reported _ _ H).
Defined.

(** C1, as stated, fails.  A malformed body served with status 200 is one of
    the listed failures; [LookupAgentTool] does not parse the body and returns
    it as it came, which is neither JSON nor carries an [error] field. *)
Lemma malformed_body_passed_through :
  failure html_world (LookupAgent "So1anaWa11et") /\
  execute html_world (LookupAgent "So1anaWa11et")
    = inr (verbatim "<html>Bad Gateway</html>") /\
  ~ error_document html_world (verbatim "<html>Bad Gateway</html>").
Proof.
  split; [| split].
  - simpl. eexists. right. right.
    exists "<html>Bad Gateway</html>". split.
    + eexists. split; reflexivity.
    + reflexivity.
  - reflexivity.
  - intros (items & Hd & _). simpl in Hd. discriminate.
Qed.

(** ** Verification faults (C3) *)

(** C3.  When the verification request raises an [HTTPError] with code 404,
    whatever reason phrase and body the response carries, [execute] returns
    exactly [{"verified": false, "error": "Agent not found in SAID registry"}];
    for every other fault [e] of the request or of the read it returns
    [{"verified": false, "error": str(e)}]. *)
Theorem verify_fault_reply (w : world) (wallet : string) :
  (forall msg body,
      request_fault w (url_request (agents_url wallet))
        (HTTPError 404 msg body) ->
      VerifyAgentTool_execute w wallet
      = inr (json_dumps
               (PyDict [("verified", PyBool false);
                        ("error", PyStr "Agent not found in SAID registry")])))
  /\
  (forall e,
      request_fault w (url_request (agents_url wallet)) e
      \/ read_fault w (url_request (agents_url wallet)) e ->
      is_404 e = false ->
      VerifyAgentTool_execute w wallet
      = inr (json_dumps (PyDict [("verified", PyBool false);
                                 ("error", PyStr (str_exn e))]))).
Proof.
  split.
  - intros msg body H.
    apply (fault_handled w (VerifyAgent wallet) _ _ eq_refl (or_introl H)).
  - intros e H H404.
    change (VerifyAgentTool_execute w wallet)
      with (execute w (VerifyAgent wallet)).
    rewrite (fault_handled w (VerifyAgent wallet) _ e eq_refl H).
    simpl. now rewrite H404.
Qed.

(** The theorem at a 404 with an arbitrary body and at a 503. *)
Lemma verify_fault_reply_witness :
  VerifyAgentTool_execute (not_found_world "[1, 2, 3]") "So1anaWa11et"
  = inr (json_dumps
           (PyDict [("verified", PyBool false);
                    ("error", PyStr "Agent not found in SAID registry")]))
  /\
  VerifyAgentTool_execute unavailable_world "So1anaWa11et"
  = inr (json_dumps
           (PyDict [("verified", PyBool false);
                    ("error", PyStr "HTTP Error 503: Service Unavailable")])).
Proof.
  split.
  - apply (proj1 (verify_fault_reply (not_found_world "[1, 2, 3]") "So1anaWa11et")
             "Not Found" "[1, 2, 3]").
    reflexivity.
  - apply (proj2 (verify_fault_reply unavailable_world "So1anaWa11et")
             (HTTPError 503 "Service Unavailable" "")).
    + left. reflexivity.
    + reflexivity.
Defined.

(** ** The registration payload (C4) *)

Lemma description_or_default_nonempty (name description : string) :
  description <> "" -> description_or_default name description = description.
Proof.
  destruct description; [congruence | reflexivity].
Qed.

Lemma register_request_post (wallet name : string)
    (description : option string) :
  RegisterAgentTool_request wallet name description
  = registration_post wallet name
      (description_or_default name (description_arg description)).
Proof. reflexivity. Qed.

Lemma register_through_post (w : world) (wallet name : string)
    (description : option string) (text : string) :
  description_or_default name (description_arg description) = text ->
  (forall e,
      urlopen w (registration_post wallet name text) 10 = inl e ->
      RegisterAgentTool_execute w wallet name description
      = inr (json_dumps (PyDict [("success", PyBool false);
                                 ("error", PyStr (str_exn e))])))
  /\
  (forall result,
      answered_json w (registration_post wallet name text) (PyDict result) ->
      RegisterAgentTool_execute w wallet name description
      = inr (json_dumps (PyDict [("success", PyBool true);
                                 ("wallet", dict_get "wallet" result);
                                 ("pda", dict_get "pda" result);
                                 ("profile", dict_get "profile" result);
                                 ("status", PyStr "PENDING")]))).
Proof.
  intros Htext. unfold RegisterAgentTool_execute.
  rewrite register_request_post, Htext. split.
  - intros e Hu. rewrite Hu. reflexivity.
  - intros result (body & (resp & Hu & Hr) & Hl).
    rewrite Hu; cbn [bind]. rewrite Hr; cbn [bind]. rewrite Hl; cbn [bind].
    unfold py_get, dict_get.
    destruct (dict_lookup "wallet" result), (dict_lookup "pda" result),
      (dict_lookup "profile" result); reflexivity.
Qed.

(** C4.  Every registration call opens, with a timeout of 10 seconds, the
    POST whose payload holds [wallet], [name] and a [description]: [name]
    followed by [" - AI Agent"] when the description argument is absent or
    the empty string, the argument unchanged when it is not empty.  The reply
    of [execute] is the reply to that request: its fault when it raises, the
    acknowledgement built from its answer when it is answered with a JSON
    object. *)
Theorem register_posts_description (w : world) (wallet name : string) :
  (forall description,
      description = None \/ description = Some "" ->
      (forall e,
          urlopen w (registration_post wallet name (name ++ " - AI Agent")) 10
          = inl e ->
          RegisterAgentTool_execute w wallet name description
          = inr (json_dumps (PyDict [("success", PyBool false);
                                     ("error", PyStr (str_exn e))])))
      /\
      (forall result,
          answered_json w
            (registration_post wallet name (name ++ " - AI Agent"))
            (PyDict result) ->
          RegisterAgentTool_execute w wallet name description
          = inr (json_dumps (PyDict [("success", PyBool true);
                                     ("wallet", dict_get "wallet" result);
                                     ("pda", dict_get "pda" result);
                                     ("profile", dict_get "profile" result);
                                     ("status", PyStr "PENDING")]))))
  /\
  (forall d,
      d <> "" ->
      (forall e,
          urlopen w (registration_post wallet name d) 10 = inl e ->
          RegisterAgentTool_execute w wallet name (Some d)
          = inr (json_dumps (PyDict [("success", PyBool false);
                                     ("error", PyStr (str_exn e))])))
      /\
      (forall result,
          answered_json w (registration_post wallet name d) (PyDict result) ->
          RegisterAgentTool_execute w wallet name (Some d)
          = inr (json_dumps (PyDict [("success", PyBool true);
                                     ("wallet", dict_get "wallet" result);
                                     ("pda", dict_get "pda" result);
                                     ("profile", dict_get "profile" result);
                                     ("status", PyStr "PENDING")])))).
Proof.
  split.
  - intros description Hd.
    apply register_through_post. now destruct Hd as [-> | ->].
  - intros d Hd.
    apply register_through_post. simpl.
    now apply description_or_default_nonempty.
Qed.

(** The theorem at a registry that quotes the description it was sent, for
    name ["Bot1"]: an empty description, an absent one, and a given one. *)
Lemma register_posts_description_witness :
  RegisterAgentTool_execute echo_world "So1anaWa11et" "Bot1" (Some "")
  = inr (json_dumps (PyDict [("success", PyBool false);
                             ("error", PyStr "Bot1 - AI Agent")]))
  /\
  RegisterAgentTool_execute echo_world "So1anaWa11et" "Bot1" None
  = inr (json_dumps (PyDict [("success", PyBool false);
                             ("error", PyStr "Bot1 - AI Agent")]))
  /\
  RegisterAgentTool_execute echo_world "So1anaWa11et" "Bot1" (Some "trades SOL")
  = inr (json_dumps (PyDict [("success", PyBool false);
                             ("error", PyStr "trades SOL")])).
Proof.
  split; [| split].
  - apply (proj1 (proj1 (register_posts_description echo_world
                           "So1anaWa11et" "Bot1")
                    (Some "") (or_intror eq_refl))
             (Exc "URLError" "Bot1 - AI Agent")).
    reflexivity.
  - apply (proj1 (proj1 (register_posts_description echo_world
                           "So1anaWa11et" "Bot1")
                    None (or_introl eq_refl))
             (Exc "URLError" "Bot1 - AI Agent")).
    reflexivity.
  - refine (proj1 (proj2 (register_posts_description echo_world
                            "So1anaWa11et" "Bot1")
                     "trades SOL" _)
              (Exc "URLError" "trades SOL") _).
    + discriminate.
    + reflexivity.
Defined.

(** ** The identity scan (C5) *)

Lemma scan_skips (w : world) (before rest : list Path) :
  Forall (unavailable w) before ->
  GetMyIdentityTool_scan w (before ++ rest)%list = GetMyIdentityTool_scan w rest.
Proof.
  induction 1 as [| p before' Hp _ IH]; simpl.
  - reflexivity.
  - destruct Hp as [Hex | (Hex & e & He)]; rewrite Hex; cbn [bind].
    + exact IH.
    + now rewrite He.
Qed.

Lemma scan_first (w : world) (before after : list Path) (p : Path) (s : string) :
  Forall (unavailable w) before ->
  available w p s ->
  GetMyIdentityTool_scan w (before ++ p :: after)%list = inr (Some s).
Proof.
  intros Hb (Hex & Hread).
  rewrite (scan_skips w before _ Hb). simpl.
  now rewrite Hex, Hread.
Qed.

Lemma scan_raises (w : world) (before after : list Path) (p : Path) (e : exn) :
  Forall (unavailable w) before ->
  path_exists w p = inl e ->
  GetMyIdentityTool_scan w (before ++ p :: after)%list = inl e.
Proof.
  intros Hb Hex.
  rewrite (scan_skips w before _ Hb). simpl.
  now rewrite Hex.
Qed.

(** C5, where the code departs from it.  [Path.home()] and [path.exists()]
    are evaluated outside the [try] that skips a candidate, so the scan
    breaks off instead of going on: when [Path.home()] raises, [execute]
    raises the same exception before any candidate is looked at; when
    [exists()] raises on a candidate reached by the scan, [execute] raises
    the same exception, whatever the candidates after it hold. *)
Theorem identity_scan_raises (w : world) (workspace : Path) :
  (forall e,
      home w = inl e ->
      GetMyIdentityTool_execute w workspace = inl e)
  /\
  (forall before p after e,
      GetMyIdentityTool_paths w workspace = inr (before ++ p :: after)%list ->
      Forall (unavailable w) before ->
      path_exists w p = inl e ->
      GetMyIdentityTool_execute w workspace = inl e).
Proof.
  split.
  - intros e Hhome.
    unfold GetMyIdentityTool_execute, GetMyIdentityTool_paths.
    now rewrite Hhome.
  - intros before p after e Hpaths Hb Hex.
    unfold GetMyIdentityTool_execute. rewrite Hpaths; cbn [bind].
    now rewrite (scan_raises w before after p e Hb Hex).
Qed.

(** The theorem where the workspace directory cannot be searched while
    [~/.config/said/identity.json] is readable, and where
    [<workspace>/said.json] is readable while no home directory is found. *)
Lemma identity_scan_raises_witness :
  available locked_directory_world
    ["home"; "bot"; ".config"; "said"; "identity.json"] "{}"
  /\ GetMyIdentityTool_execute locked_directory_world ["srv"; "bot"]
     = inl permission_denied
  /\ available homeless_world ["srv"; "bot"; "said.json"] "{}"
  /\ GetMyIdentityTool_execute homeless_world ["srv"; "bot"]
     = inl (Exc "RuntimeError" "Could not determine home directory.").
Proof.
  split; [split; reflexivity |]. split; [| split; [split; reflexivity |]].
  - apply (proj2 (identity_scan_raises locked_directory_world ["srv"; "bot"])
             [] ["srv"; "bot"; "said.json"]
             [["home"; "bot"; ".nanobot"; "said.json"];
              ["home"; "bot"; ".config"; "said"; "identity.json"]]).
    + reflexivity.
    + constructor.
    + reflexivity.
  - apply (proj1 (identity_scan_raises homeless_world ["srv"; "bot"])).
    reflexivity.
Defined.

(** ** Reshaping replies (C8, C10) *)

Lemma py_get_dict (items : list (string * pyval)) (k : string) :
  py_get (PyDict items) k PyNone = inr (dict_get k items).
Proof.
  unfold py_get, dict_get. now destruct (dict_lookup k items).
Qed.

Lemma verify_reshapes (w : world) (wallet : string)
    (agent : list (string * pyval)) :
  answered_json w (url_request (agents_url wallet)) (PyDict agent) ->
  VerifyAgentTool_execute w wallet
  = inr (json_dumps
           (PyDict [("verified", PyBool true);
                    ("name", dict_get "name" agent);
                    ("wallet", dict_get "wallet" agent);
                    ("pda", dict_get "pda" agent);
                    ("isVerified", dict_get "isVerified" agent);
                    ("reputationScore", dict_get "reputationScore" agent);
                    ("description", dict_get "description" agent);
                    ("profile",
                     PyStr ("https://www.saidprotocol.com/agent.html?wallet="
                            ++ wallet))])).
Proof.
  intros (body & (resp & Hu & Hr) & Hl).
  unfold VerifyAgentTool_execute.
  rewrite Hu; cbn [bind]. rewrite Hr; cbn [bind]. rewrite Hl; cbn [bind].
  rewrite !py_get_dict. reflexivity.
Qed.

(** C8.  When the verification request is answered (status 200) with a body
    that parses as a JSON object [agent], [execute] returns [verified: true]
    whatever [agent] holds; [name], [wallet], [pda], [isVerified],
    [reputationScore] and [description] are [agent.get(...)], hence [null]
    (Python [None]) where [agent] lacks them; an [isVerified] that is absent
    or false leaves [verified] true. *)
Theorem verify_true_on_any_object (w : world) (wallet : string)
    (agent : list (string * pyval)) :
  answered_json w (url_request (agents_url wallet)) (PyDict agent) ->
  exists items,
    VerifyAgentTool_execute w wallet = inr (json_dumps (PyDict items))
    /\ dict_lookup "verified" items = Some (PyBool true)
    /\ (forall k,
          In k ["name"; "wallet"; "pda"; "isVerified"; "reputationScore";
                "description"] ->
          dict_lookup k items = Some (dict_get k agent)
          /\ (dict_lookup k agent = None -> dict_lookup k items = Some PyNone)).
Proof.
  intros H. eexists. split; [apply (verify_reshapes w wallet agent H) |].
  split; [reflexivity |].
  intros k Hk. simpl in Hk.
  assert (Hget : dict_lookup k agent = None -> dict_get k agent = PyNone).
  { unfold dict_get. now intros ->. }
  repeat (destruct Hk as [<- | Hk];
          [ split; [reflexivity | intros Hn; simpl; now rewrite (Hget Hn)] |]).
  contradiction.
Qed.

(** The theorem at a record without [pda] whose [isVerified] is false. *)
Lemma verify_true_on_any_object_witness :
  exists items,
    VerifyAgentTool_execute
      (registry_world unverified_record_body
         (PyDict [("name", PyStr "Bot1"); ("isVerified", PyBool false)]))
      "So1anaWa11et"
    = inr (json_dumps (PyDict items))
    /\ dict_lookup "verified" items = Some (PyBool true)
    /\ dict_lookup "isVerified" items = Some (PyBool false)
    /\ dict_lookup "pda" items = Some PyNone.
Proof.
  destruct (verify_true_on_any_object
              (registry_world unverified_record_body
                 (PyDict [("name", PyStr "Bot1"); ("isVerified", PyBool false)]))
              "So1anaWa11et"
              [("name", PyStr "Bot1"); ("isVerified", PyBool false)])
    as (items & Hex & Hv & Hk).
  - exists unverified_record_body.
    split; [eexists; split; reflexivity | reflexivity].
  - exists items. split; [exact Hex | split; [exact Hv | split]].
    + apply (Hk "isVerified"). simpl. tauto.
    + apply (Hk "pda"); [simpl; tauto | reflexivity].
Defined.

(** C10.  When the registration POST is answered with a body that parses as
    a JSON object [result], [execute] returns [success: true] and the literal
    [status: "PENDING"], whatever [status] or [success] the object holds;
    [wallet], [pda] and [profile] are [result.get(...)], hence [null] where
    [result] lacks them. *)
Theorem register_reply_pending (w : world) (wallet name : string)
    (description : option string) (result : list (string * pyval)) :
  answered_json w (RegisterAgentTool_request wallet name description)
    (PyDict result) ->
  RegisterAgentTool_execute w wallet name description
  = inr (json_dumps (PyDict [("success", PyBool true);
                             ("wallet", dict_get "wallet" result);
                             ("pda", dict_get "pda" result);
                             ("profile", dict_get "profile" result);
                             ("status", PyStr "PENDING")]))
  /\ (forall k, In k ["wallet"; "pda"; "profile"] ->
                dict_lookup k result = None -> dict_get k result = PyNone).
Proof.
  intros (body & (resp & Hu & Hr) & Hl). split.
  - unfold RegisterAgentTool_execute.
    rewrite Hu; cbn [bind]. rewrite Hr; cbn [bind]. rewrite Hl; cbn [bind].
    rewrite !py_get_dict. reflexivity.
  - intros k _ Hk. unfold dict_get. now rewrite Hk.
Qed.

(** The theorem at an upstream object that says [success: false] and
    [status: "REJECTED"] and has no [pda] or [profile]. *)
Lemma register_reply_pending_witness :
  RegisterAgentTool_execute
    (registry_world rejected_body
       (PyDict [("success", PyBool false); ("status", PyStr "REJECTED");
                ("wallet", PyStr "So1anaWa11et")]))
    "So1anaWa11et" "Bot1" None
  = inr (json_dumps (PyDict [("success", PyBool true);
                             ("wallet", PyStr "So1anaWa11et");
                             ("pda", PyNone);
                             ("profile", PyNone);
                             ("status", PyStr "PENDING")])).
Proof.
  refine (proj1 (register_reply_pending
                   (registry_world rejected_body
                      (PyDict [("success", PyBool false);
                               ("status", PyStr "REJECTED");
                               ("wallet", PyStr "So1anaWa11et")]))
                   "So1anaWa11et" "Bot1" None
                   [("success", PyBool false); ("status", PyStr "REJECTED");
                    ("wallet", PyStr "So1anaWa11et")] _)).
  exists rejected_body. split; [eexists; split; reflexivity | reflexivity].
Defined.

(** ** Balance replies without a result (C9, C7) *)

Lemma balance_without_result (w : world) (address : string)
    (data : list (string * pyval)) :
  answered_json w (GetBalanceTool_request w address) (PyDict data) ->
  has_key "result" data = false ->
  GetBalanceTool_execute w address
  = inr (json_dumps
           (PyDict [("error",
                     match dict_lookup "error" data with
                     | Some err => err
                     | None => PyStr "Unknown error"
                     end)])).
Proof.
  intros (body & (resp & Hu & Hr) & Hl) Hres.
  unfold GetBalanceTool_execute.
  rewrite Hu; cbn [bind]. rewrite Hr; cbn [bind]. rewrite Hl; cbn [bind].
  cbn [py_contains bind ret]. rewrite Hres. cbn [py_get].
  now destruct (dict_lookup "error" data).
Qed.

Lemma has_key_false (k : string) (items : list (string * pyval)) :
  has_key k items = false -> dict_lookup k items = None.
Proof.
  unfold has_key. now destruct (dict_lookup k items).
Qed.

(** C9, as amended.  When the balance request is answered with a body that
    parses as a JSON object with neither a [result] nor an [error] field,
    [execute] returns exactly [{"error": "Unknown error"}]. *)
Theorem balance_unknown_error (w : world) (address : string)
    (data : list (string * pyval)) :
  answered_json w (GetBalanceTool_request w address) (PyDict data) ->
  has_field "result" (PyDict data) = false ->
  has_field "error" (PyDict data) = false ->
  GetBalanceTool_execute w address
  = inr (json_dumps (PyDict [("error", PyStr "Unknown error")])).
Proof.
  intros Ha Hres Herr. simpl in Hres, Herr.
  rewrite (balance_without_result w address data Ha Hres).
  now rewrite (has_key_false _ _ Herr).
Qed.

(** The theorem at an object that holds only [jsonrpc] and [id]. *)
Lemma balance_unknown_error_witness :
  GetBalanceTool_execute bare_world "So1anaWa11et"
  = inr (json_dumps (PyDict [("error", PyStr "Unknown error")])).
Proof.
  apply (balance_unknown_error bare_world "So1anaWa11et"
           [("jsonrpc", PyStr "2.0"); ("id", PyInt 1)]).
  - exists bare_body. split; [eexists; split; reflexivity | reflexivity].
  - reflexivity.
  - reflexivity.
Defined.

(** C9, as stated, fails.  The body [[]] parses as JSON and has neither
    field; [data.get] raises [AttributeError] on the list and the reply
    carries that message, not ["Unknown error"]. *)
Lemma balance_array_not_unknown_error :
  answered_json array_world (GetBalanceTool_request array_world "So1anaWa11et")
    (PyList [])
  /\ has_field "result" (PyList []) = false
  /\ has_field "error" (PyList []) = false
  /\ GetBalanceTool_execute array_world "So1anaWa11et"
     = inr (json_dumps
              (PyDict [("error",
                        PyStr "'list' object has no attribute 'get'")]))
  /\ GetBalanceTool_execute array_world "So1anaWa11et"
     <> inr (json_dumps (PyDict [("error", PyStr "Unknown error")])).
Proof.
  repeat split.
  - exists "[]". split; [eexists; split; reflexivity | reflexivity].
  - discriminate.
Qed.

(** C7, as amended.  When the balance request is answered with a JSON object
    that has an [error] field and no [result] field, [execute] returns the
    value of that field, unchanged, under [error]; when the request, the read
    or the parse raises [e] it returns [{"error": str(e)}];
    [GetTrustScoreTool] returns [{"error": str(e)}] for every fault [e] of the
    request or the read, a 404 included. *)
Theorem balance_and_trust_errors (w : world) :
  (forall address data err,
      answered_json w (GetBalanceTool_request w address) (PyDict data) ->
      has_key "result" data = false ->
      dict_lookup "error" data = Some err ->
      GetBalanceTool_execute w address
      = inr (json_dumps (PyDict [("error", err)])))
  /\
  (forall address e,
      request_fault w (GetBalanceTool_request w address) e
      \/ read_fault w (GetBalanceTool_request w address) e
      \/ malformed_json w (GetBalanceTool_request w address) e ->
      GetBalanceTool_execute w address
      = inr (json_dumps (PyDict [("error", PyStr (str_exn e))])))
  /\
  (forall wallet e,
      request_fault w (url_request (trust_url wallet)) e
      \/ read_fault w (url_request (trust_url wallet)) e ->
      GetTrustScoreTool_execute w wallet
      = inr (json_dumps (PyDict [("error", PyStr (str_exn e))]))).
Proof.
  split; [| split].
  - intros address data err Ha Hres Herr.
    rewrite (balance_without_result w address data Ha Hres).
    now rewrite Herr.
  - intros address e [H | [H | H]].
    + apply (fault_handled w (GetBalance address) _ e eq_refl). now left.
    + apply (fault_handled w (GetBalance address) _ e eq_refl). now right.
    + now apply (malformed_handled w (GetBalance address) _ e eq_refl).
  - intros wallet e H.
    apply (fault_handled w (GetTrustScore wallet) _ e eq_refl H).
Qed.

(** The theorem at a JSON-RPC error answer and at a trust lookup that meets
    status 404. *)
Lemma balance_and_trust_errors_witness :
  GetBalanceTool_execute rpc_error_world "So1anaWa11et"
  = inr (json_dumps (PyDict [("error", invalid_params)]))
  /\
  GetTrustScoreTool_execute (not_found_world "") "So1anaWa11et"
  = inr (json_dumps (PyDict [("error", PyStr "HTTP Error 404: Not Found")])).
Proof.
  split.
  - apply (proj1 (balance_and_trust_errors rpc_error_world) "So1anaWa11et"
             [("jsonrpc", PyStr "2.0"); ("error", invalid_params);
              ("id", PyInt 1)]).
    + exists rpc_error_body.
      split; [eexists; split; reflexivity | reflexivity].
    + reflexivity.
    + reflexivity.
  - apply (proj2 (proj2 (balance_and_trust_errors (not_found_world "")))
             "So1anaWa11et" (HTTPError 404 "Not Found" "")).
    left. reflexivity.
Defined.

(** C7, as stated, fails.  An answer that carries an [error] member next to
    a [result] that is [null] takes the result branch, where subscripting
    [None] raises; the reply holds the message of that [TypeError], not the
    upstream error value. *)
Lemma balance_error_beside_result :
  answered_json null_result_world
    (GetBalanceTool_request null_result_world "So1anaWa11et")
    (PyDict [("jsonrpc", PyStr "2.0"); ("result", PyNone);
             ("error", invalid_params); ("id", PyInt 1)])
  /\ GetBalanceTool_execute null_result_world "So1anaWa11et"
     = inr (json_dumps
              (PyDict [("error",
                        PyStr "'NoneType' object is not subscriptable")]))
  /\ GetBalanceTool_execute null_result_world "So1anaWa11et"
     <> inr (json_dumps (PyDict [("error", invalid_params)])).
Proof.
  repeat split.
  - exists null_result_body.
    split; [eexists; split; reflexivity | reflexivity].
  - discriminate.
Qed.

(** ** Pass-through and reshaping (C6) *)

(** C6, as amended.  When the request is answered and the body is read,
    [LookupAgentTool] and [GetTrustScoreTool] return the body as it is; when
    the body moreover parses as a JSON object, [VerifyAgentTool] returns a
    new object with exactly the fields [verified], [name], [wallet], [pda],
    [isVerified], [reputationScore], [description], [profile]. *)
Theorem passthrough_and_reshape (w : world) (wallet : string) :
  (forall body,
      answered w (url_request (agents_url wallet)) body ->
      LookupAgentTool_execute w wallet = inr (verbatim body))
  /\
  (forall body,
      answered w (url_request (trust_url wallet)) body ->
      GetTrustScoreTool_execute w wallet = inr (verbatim body))
  /\
  (forall agent,
      answered_json w (url_request (agents_url wallet)) (PyDict agent) ->
      exists items,
        VerifyAgentTool_execute w wallet = inr (json_dumps (PyDict items))
        /\ map fst items = verification_fields).
Proof.
  split; [| split].
  - intros body (resp & Hu & Hr). unfold LookupAgentTool_execute.
    rewrite Hu; cbn [bind]. rewrite Hr. reflexivity.
  - intros body (resp & Hu & Hr). unfold GetTrustScoreTool_execute.
    rewrite Hu; cbn [bind]. rewrite Hr. reflexivity.
  - intros agent H. eexists.
    split; [apply (verify_reshapes w wallet agent H) | reflexivity].
Qed.

(** The theorem at one answer seen by the three tools. *)
Lemma passthrough_and_reshape_witness :
  LookupAgentTool_execute
    (registry_world unverified_record_body
       (PyDict [("name", PyStr "Bot1"); ("isVerified", PyBool false)]))
    "So1anaWa11et"
  = inr (verbatim unverified_record_body)
  /\
  GetTrustScoreTool_execute
    (registry_world unverified_record_body
       (PyDict [("name", PyStr "Bot1"); ("isVerified", PyBool false)]))
    "So1anaWa11et"
  = inr (verbatim unverified_record_body)
  /\
  exists items,
    VerifyAgentTool_execute
      (registry_world unverified_record_body
         (PyDict [("name", PyStr "Bot1"); ("isVerified", PyBool false)]))
      "So1anaWa11et"
    = inr (json_dumps (PyDict items))
    /\ map fst items = verification_fields.
Proof.
  pose proof (passthrough_and_reshape
                (registry_world unverified_record_body
                   (PyDict [("name", PyStr "Bot1");
                            ("isVerified", PyBool false)]))
                "So1anaWa11et") as (Hlookup & Htrust & Hverify).
  split; [| split].
  - apply Hlookup. eexists. split; reflexivity.
  - apply Htrust. eexists. split; reflexivity.
  - apply (Hverify [("name", PyStr "Bot1"); ("isVerified", PyBool false)]).
    exists unverified_record_body.
    split; [eexists; split; reflexivity | reflexivity].
Defined.

(** C6, as stated, fails.  An answer with status 200 whose body is the JSON
    array [[]] reaches [agent.get] with a list; [VerifyAgentTool] replies
    with [verified: false] and the message of the [AttributeError], not with
    the eight fields. *)
Lemma verify_array_not_reshaped :
  (exists resp,
      urlopen array_world (url_request (agents_url "So1anaWa11et")) 10 = inr resp
      /\ status resp = 200 /\ read_decode resp = inr "[]")
  /\ LookupAgentTool_execute array_world "So1anaWa11et" = inr (verbatim "[]")
  /\ VerifyAgentTool_execute array_world "So1anaWa11et"
     = inr (json_dumps
              (PyDict [("verified", PyBool false);
                       ("error",
                        PyStr "'list' object has no attribute 'get'")]))
  /\ ~ (exists items,
          VerifyAgentTool_execute array_world "So1anaWa11et"
          = inr (json_dumps (PyDict items))
          /\ map fst items = verification_fields).
Proof.
  split; [| split; [| split]].
  - eexists. repeat split.
  - reflexivity.
  - reflexivity.
  - intros (items & Hex & Hf).
    assert (Hi : items = [("verified", PyBool false);
                          ("error",
                           PyStr "'list' object has no attribute 'get'")]).
    { change (VerifyAgentTool_execute array_world "So1anaWa11et")
        with (@inr exn text
                (json_dumps
                   (PyDict [("verified", PyBool false);
                            ("error",
                             PyStr "'list' object has no attribute 'get'")])))
        in Hex.
      now inversion Hex. }
    subst items. discriminate.
Qed.

(** ** True division by one billion *)

Section TrueDivision.

Local Open Scope Z_scope.

Lemma digits2_pos_size (p : positive) : digits2_pos p = Pos.size p.
Proof. induction p; simpl; congruence. Qed.

Lemma Zdigits2_unique (q k : Z) :
  0 < k -> 2 ^ (k - 1) <= q < 2 ^ k -> Zdigits2 q = k.
Proof.
  intros Hk [Hlo Hhi].
  assert (Hq : 0 < q) by (pose proof (Z.pow_pos_nonneg 2 (k - 1)); lia).
  destruct q as [| p | p]; try lia.
  simpl. rewrite digits2_pos_size.
  pose proof (Pos.size_gt p) as Hgt. pose proof (Pos.size_le p) as Hle.
  apply Pos2Z.pos_lt_pos in Hgt. apply Pos2Z.pos_le_pos in Hle.
  rewrite Pos2Z.inj_pow in Hgt, Hle.
  change (Z.pos 2) with 2 in Hle. rewrite (Pos2Z.inj_xO p) in Hle.
  set (d := Z.pos (Pos.size p)) in *.
  assert (Hd : 0 < d) by (unfold d; lia).
  assert (d < k + 1).
  { apply (Z.pow_lt_mono_r_iff 2 d (k + 1)); try lia.
    replace (k + 1) with (Z.succ k) by lia. rewrite Z.pow_succ_r by lia.
    lia. }
  assert (k - 1 < d).
  { apply (Z.pow_lt_mono_r_iff 2 (k - 1) d); lia. }
  lia.
Qed.

Lemma shr_fexp_53 (q e : Z) (l : location) :
  2 ^ 52 <= q < 2 ^ 53 -> -1074 <= e ->
  shr_fexp prec emax q e l = (shr_record_of_loc q l, e).
Proof.
  intros Hq He. unfold shr_fexp.
  rewrite (Zdigits2_unique q 53); [| lia | exact Hq].
  unfold fexp, emin, prec, emax.
  replace (Z.max (53 + e - 53) (3 - 1024 - 53) - e) with 0 by lia.
  reflexivity.
Qed.

Lemma shr_fexp_54 (q e : Z) (l : location) :
  2 ^ 53 <= q < 2 ^ 54 -> -1075 <= e ->
  shr_fexp prec emax q e l = (shr_1 (shr_record_of_loc q l), e + 1).
Proof.
  intros Hq He. unfold shr_fexp.
  rewrite (Zdigits2_unique q 54); [| lia | exact Hq].
  unfold fexp, emin, prec, emax.
  replace (Z.max (54 + e - 53) (3 - 1024 - 53) - e) with 1 by lia.
  reflexivity.
Qed.

Lemma shr_m_of_loc q l : shr_m (shr_record_of_loc q l) = q.
Proof. destruct l as [| []]; reflexivity. Qed.
Lemma loc_of_shr_of_loc q l : loc_of_shr_record (shr_record_of_loc q l) = l.
Proof. destruct l as [| []]; reflexivity. Qed.

(** The second normalisation: a rounded mantissa that reached [2^53] is
    halved. *)
Lemma finish_round (M e : Z) :
  2 ^ 52 <= M <= 2 ^ 53 -> -1074 <= e <= 970 ->
  (let '(mrs, e') := shr_fexp prec emax M e loc_Exact in
   match shr_m mrs with
   | Z0 => S754_zero false
   | Zpos m => if Z.leb e' (emax - prec) then S754_finite false m e' else S754_infinity false
   | Zneg _ => S754_nan
   end)
  = if M <? 2 ^ 53 then S754_finite false (Z.to_pos M) e
    else S754_finite false (Z.to_pos (2 ^ 52)) (e + 1).
Proof.
  intros HM He.
  destruct (Z.ltb_spec M (2 ^ 53)) as [Hlt | Hge].
  - rewrite shr_fexp_53 by lia. cbn [shr_m shr_record_of_loc].
    destruct M as [| m | m]; try lia.
    replace (e <=? emax - prec) with true; [reflexivity |].
    symmetry. apply Z.leb_le. unfold emax, prec. lia.
  - assert (M = 2 ^ 53) by lia. subst M.
    rewrite shr_fexp_54 by lia.
    cbn -[Z.leb Z.add].
    replace (e + 1 <=? emax - prec) with true; [reflexivity |].
    symmetry. apply Z.leb_le. unfold emax, prec. lia.
Qed.

Lemma new_location_spec (b r : Z) :
  Z.even b = true -> 0 <= r < b ->
  match new_location b r with
  | loc_Exact => r = 0
  | loc_Inexact Lt => 0 < r /\ 2 * r < b
  | loc_Inexact Eq => 2 * r = b
  | loc_Inexact Gt => b < 2 * r
  end.
Proof.
  intros Hb Hr. unfold new_location. rewrite Hb. unfold new_location_even.
  destruct (Z.eqb_spec r 0) as [-> | Hn]; [reflexivity |].
  destruct (Z.compare_spec (2 * r) b); lia.
Qed.

Lemma round_53 (q r b e : Z) :
  2 ^ 52 <= q < 2 ^ 53 -> 0 <= r < b -> Z.even b = true ->
  -1074 <= e <= 960 ->
  exists m k,
    binary_round_aux prec emax false q e (new_location b r)
    = S754_finite false m (e + k)
    /\ 0 <= k <= 1 /\ 2 ^ 52 <= Zpos m < 2 ^ 53
    /\ half_ulp m k (q * b + r) b.
Proof.
  intros Hq Hr Hb He.
  pose proof (new_location_spec b r Hb Hr) as Hl.
  unfold binary_round_aux.
  rewrite shr_fexp_53 by lia.
  rewrite shr_m_of_loc, loc_of_shr_of_loc.
  set (M := round_nearest_even q (new_location b r)).
  assert (HM : (M = q /\ 2 * r <= b /\ (2 * r = b -> Z.even q = true))
               \/ (M = q + 1 /\ b <= 2 * r
                   /\ (2 * r = b -> Z.even (q + 1) = true))).
  { unfold M. revert Hl.
    destruct (new_location b r) as [| []]; cbn [round_nearest_even]; intros Hl.
    - left. repeat split; intros; lia.
    - destruct (Z.even q) eqn:Hev.
      + left. repeat split; intros; try lia; exact Hev.
      + right. repeat split; intros; try lia.
        rewrite Z.even_add, Hev. reflexivity.
    - left. repeat split; intros; lia.
    - right. repeat split; intros; lia. }
  clearbody M.
  rewrite (finish_round M e) by lia.
  destruct (Z.ltb_spec M (2 ^ 53)) as [Hlt | Hge].
  - exists (Z.to_pos M), 0. rewrite Z.add_0_r.
    split; [reflexivity |].
    rewrite Z2Pos.id by lia. change (2 ^ 0) with 1.
    split; [lia |]. split; [lia |].
    unfold half_ulp. rewrite Z2Pos.id by lia. change (2 ^ 0) with 1.
    destruct HM as [(-> & H1 & H2) | (-> & H1 & H2)].
    + split; [lia |]. split; [intros Ht; apply H2; lia | intros; lia].
    + split; [lia |]. split; [intros Ht; apply H2; lia | intros; lia].
  - exists (Z.to_pos (2 ^ 52)), 1.
    split; [reflexivity |].
    split; [lia |]. split; [simpl; lia |].
    unfold half_ulp.
    change (Z.pos (Z.to_pos (2 ^ 52)) * 2 ^ 1) with (2 ^ 53).
    change (2 ^ 1) with 2.
    destruct HM as [(-> & H1 & H2) | (-> & H1 & H2)]; [lia |].
    assert (Hq53 : q = 2 ^ 53 - 1) by lia.
    rewrite Hq53.
    split; [lia |]. split; [reflexivity | intros; lia].
Qed.

Lemma round_54 (q r b e : Z) :
  2 ^ 53 <= q < 2 ^ 54 -> 0 <= r < b -> Z.even b = true ->
  -1075 <= e <= 960 ->
  exists m k,
    binary_round_aux prec emax false q e (new_location b r)
    = S754_finite false m (e + k)
    /\ 1 <= k <= 2 /\ 2 ^ 52 <= Zpos m < 2 ^ 53
    /\ half_ulp m k (q * b + r) b.
Proof.
  intros Hq Hr Hb He.
  pose proof (new_location_spec b r Hb Hr) as Hl.
  unfold binary_round_aux.
  rewrite shr_fexp_54 by lia.
  assert (Hsplit : exists p c,
             q = 2 * p + c /\ (c = 0 \/ c = 1) /\ 2 ^ 52 <= p < 2 ^ 53
             /\ exists M,
                 round_nearest_even
                   (shr_m (shr_1 (shr_record_of_loc q (new_location b r))))
                   (loc_of_shr_record
                      (shr_1 (shr_record_of_loc q (new_location b r)))) = M
                 /\ ((M = p /\ c * b + r <= b
                      /\ (c * b + r = b -> Z.even p = true))
                     \/ (M = p + 1 /\ b <= c * b + r
                         /\ (c * b + r = b -> Z.even (p + 1) = true)))).
  { destruct q as [| [p | p |] |]; try lia.
    - exists (Zpos p), 1.
      split; [exact (Pos2Z.inj_xI p) |]. split; [now right |]. split; [lia |].
      eexists. split; [reflexivity |]. revert Hl.
      destruct (new_location b r) as [| []];
        cbn [shr_record_of_loc shr_1 shr_m loc_of_shr_record orb
             round_nearest_even]; intros Hl.
      + destruct (Z.even (Zpos p)) eqn:Hev.
        * left. repeat split; intros; try lia; exact Hev.
        * right. repeat split; intros; try lia.
          rewrite Z.even_add, Hev. reflexivity.
      + right. repeat split; intros; lia.
      + right. repeat split; intros; lia.
      + right. repeat split; intros; lia.
    - exists (Zpos p), 0.
      split; [lia |]. split; [now left |]. split; [lia |].
      eexists. split; [reflexivity |]. revert Hl.
      destruct (new_location b r) as [| []];
        cbn [shr_record_of_loc shr_1 shr_m loc_of_shr_record orb
             round_nearest_even]; intros Hl;
        left; repeat split; intros; lia. }
  destruct Hsplit as (p & c & Hqc & Hc & Hp & M & HMeq & HM).
  rewrite HMeq.
  rewrite (finish_round M (e + 1)) by lia.
  assert (Hx : q * b + r = 2 * (p * b) + (c * b + r)) by (rewrite Hqc; ring).
  rewrite Hx. clear Hx.
  set (pb := p * b) in *. set (t := c * b + r) in *.
  destruct (Z.ltb_spec M (2 ^ 53)) as [Hlt | Hge].
  - exists (Z.to_pos M), 1.
    split; [reflexivity |].
    rewrite Z2Pos.id by lia.
    split; [lia |]. split; [lia |].
    unfold half_ulp. rewrite Z2Pos.id by lia. change (2 ^ 1) with 2.
    destruct HM as [(-> & H1 & H2) | (-> & H1 & H2)].
    + replace (p * 2 * b) with (2 * pb) by (unfold pb; ring).
      split; [lia |]. split; [intros Ht; apply H2; lia | intros; lia].
    + replace ((p + 1) * 2 * b) with (2 * pb + 2 * b) by (unfold pb; ring).
      split; [lia |]. split; [intros Ht; apply H2; lia | intros; lia].
  - exists (Z.to_pos (2 ^ 52)), 2.
    split; [f_equal; lia |].
    split; [lia |]. split; [simpl; lia |].
    unfold half_ulp.
    change (Z.pos (Z.to_pos (2 ^ 52)) * 2 ^ 2) with (2 ^ 54).
    change (2 ^ 2) with 4.
    destruct HM as [(-> & H1 & H2) | (-> & H1 & H2)]; [lia |].
    assert (Hp53 : p = 2 ^ 53 - 1) by lia.
    unfold pb. rewrite Hp53.
    split; [lia |]. split; [reflexivity | intros; lia].
Qed.

Lemma Zdigits2_bounds (a : Z) :
  0 < a -> 0 < Zdigits2 a /\ 2 ^ (Zdigits2 a - 1) <= a < 2 ^ Zdigits2 a.
Proof.
  intros Ha. destruct a as [| p | p]; try lia.
  cbn [Zdigits2]. rewrite digits2_pos_size.
  pose proof (Pos.size_gt p) as Hgt. pose proof (Pos.size_le p) as Hle.
  apply Pos2Z.pos_lt_pos in Hgt. apply Pos2Z.pos_le_pos in Hle.
  rewrite Pos2Z.inj_pow in Hgt, Hle.
  change (Z.pos 2) with 2 in Hle. rewrite (Pos2Z.inj_xO p) in Hle.
  set (d := Z.pos (Pos.size p)) in *.
  assert (Hd : 0 < d) by (unfold d; lia).
  split; [exact Hd |]. split; [| exact Hgt].
  replace d with (Z.succ (d - 1)) in Hle by lia.
  rewrite Z.pow_succ_r in Hle by lia. lia.
Qed.

Lemma div_core_billion (a : Z) :
  0 < a < 2 ^ 64 ->
  exists q r d,
    SFdiv_core_binary prec emax a 0 billion 0
    = (q, d - 83, new_location billion r)
    /\ 1 <= d <= 64
    /\ a * 2 ^ (83 - d) = billion * q + r /\ 0 <= r < billion
    /\ 2 ^ 52 <= q < 2 ^ 54.
Proof.
  intros Ha.
  destruct (Zdigits2_bounds a) as (Hd & Hlo & Hhi); [lia |].
  set (d := Zdigits2 a) in *.
  assert (Hd64 : d <= 64).
  { assert (d - 1 < 64); [| lia].
    apply (Z.pow_lt_mono_r_iff 2 (d - 1) 64); lia. }
  unfold SFdiv_core_binary. fold d.
  change (Zdigits2 billion) with 30.
  unfold fexp, emin, prec, emax.
  replace (Z.min (Z.max (d + 0 - (30 + 0) - 53) (3 - 1024 - 53)) (0 - 0))
    with (d - 83) by lia.
  replace (0 - 0 - (d - 83)) with (83 - d) by lia.
  assert (Hs : 0 < 83 - d) by lia.
  destruct (83 - d) as [| s | s] eqn:Es; try lia.
  rewrite Z.shiftl_mul_pow2 by lia.
  pose proof (Z_div_mod (a * 2 ^ Z.pos s) billion eq_refl) as Hdm.
  destruct (Z.div_eucl (a * 2 ^ Z.pos s) billion) as [q r].
  destruct Hdm as (Heq & Hr).
  exists q, r, d. split; [reflexivity |].
  split; [lia |]. split; [rewrite Es; exact Heq |]. split; [exact Hr |].
  assert (Hm : 2 ^ 82 <= a * 2 ^ Z.pos s < 2 ^ 83).
  { rewrite <- Es.
    assert (H82 : 2 ^ (d - 1) * 2 ^ (83 - d) = 2 ^ 82).
    { rewrite <- Z.pow_add_r by lia. f_equal. lia. }
    assert (H83 : 2 ^ d * 2 ^ (83 - d) = 2 ^ 83).
    { rewrite <- Z.pow_add_r by lia. f_equal. lia. }
    assert (HP : 0 < 2 ^ (83 - d)) by (apply Z.pow_pos_nonneg; lia).
    rewrite <- H82, <- H83. split.
    - apply Z.mul_le_mono_nonneg_r; lia.
    - apply Z.mul_lt_mono_pos_r; lia. }
  unfold billion in *. lia.
Qed.

Lemma bounded_53 (m : positive) (e : Z) :
  2 ^ 52 <= Zpos m < 2 ^ 53 -> -1074 <= e <= 971 ->
  bounded prec emax m e = true.
Proof.
  intros Hm He. unfold bounded, canonical_mantissa.
  change (Z.pos (digits2_pos m)) with (Zdigits2 (Zpos m)).
  rewrite (Zdigits2_unique (Zpos m) 53) by lia.
  unfold fexp, emin, prec, emax.
  apply andb_true_iff. split.
  - apply Z.eqb_eq. lia.
  - apply Z.leb_le. lia.
Qed.

Lemma half_ulp_scaled (m : positive) (k s a b : Z) :
  0 <= k <= s -> 0 < b ->
  half_ulp m k (a * 2 ^ s) b ->
  2 * Z.abs (Zpos m * b - a * 2 ^ (s - k)) <= b
  /\ (2 * Z.abs (Zpos m * b - a * 2 ^ (s - k)) = b -> Z.even (Zpos m) = true)
  /\ (Zpos m = 2 ^ 52 -> a * 2 ^ (s - k) < Zpos m * b ->
      4 * (Zpos m * b - a * 2 ^ (s - k)) <= b).
Proof.
  intros Hk Hb (Hle & Htie & Hquarter).
  assert (HP : 0 < 2 ^ k) by (apply Z.pow_pos_nonneg; lia).
  assert (Hs : a * 2 ^ s = a * 2 ^ (s - k) * 2 ^ k).
  { rewrite <- Z.mul_assoc, <- Z.pow_add_r by lia. do 2 f_equal. lia. }
  rewrite Hs in Hle, Htie, Hquarter.
  replace (Zpos m * 2 ^ k * b - a * 2 ^ (s - k) * 2 ^ k)
    with ((Zpos m * b - a * 2 ^ (s - k)) * 2 ^ k) in Hle, Htie, Hquarter by ring.
  rewrite Z.abs_mul, (Z.abs_eq (2 ^ k)) in Hle, Htie by lia.
  set (x := a * 2 ^ (s - k)) in *.
  set (t := Z.abs (Zpos m * b - x)) in *.
  split; [nia |]. split.
  - intros Ht. apply Htie. nia.
  - intros Hm Hlt. specialize (Hquarter Hm).
    assert (Hx : x * 2 ^ k < Zpos m * 2 ^ k * b) by nia.
    specialize (Hquarter Hx). nia.
Qed.

(** True division of a 64-bit count by [10^9] does not overflow and is
    correctly rounded. *)
Lemma int_truediv_billion (a : Z) :
  0 <= a < 2 ^ 64 ->
  exists f, int_truediv a 1000000000 = inr f /\ nearest_quotient f a billion.
Proof.
  intros Ha.
  destruct (Z.eq_dec a 0) as [-> | Hn].
  { exists (S754_zero false). split; reflexivity. }
  assert (Hpos : 0 < a < 2 ^ 64) by lia.
  destruct (div_core_billion a Hpos) as (q & r & d & Hcore & Hd & Heq & Hr & Hq).
  unfold int_truediv.
  destruct a as [| p | p]; try lia.
  cbn [Z.abs Z.ltb Z.compare].
  change (Z.pos 1000000000) with billion. rewrite Hcore.
  assert (Hround : exists m k,
             binary_round_aux prec emax false q (d - 83) (new_location billion r)
             = S754_finite false m (d - 83 + k)
             /\ 0 <= k <= 2 /\ 2 ^ 52 <= Zpos m < 2 ^ 53
             /\ half_ulp m k (q * billion + r) billion).
  { destruct (Z.lt_ge_cases q (2 ^ 53)) as [Hlt | Hge].
    - destruct (round_53 q r billion (d - 83)) as (m & k & H1 & H2 & H3 & H4);
        try lia; try reflexivity.
      exists m, k.
      split; [exact H1 |]. split; [lia |]. split; [exact H3 | exact H4].
    - destruct (round_54 q r billion (d - 83)) as (m & k & H1 & H2 & H3 & H4);
        try lia; try reflexivity.
      exists m, k.
      split; [exact H1 |]. split; [lia |]. split; [exact H3 | exact H4]. }
  destruct Hround as (m & k & Hrnd & Hk & Hm & Hulp).
  rewrite Hrnd. eexists. split; [reflexivity |].
  cbn [nearest_quotient].
  split; [apply bounded_53; lia |].
  split; [lia |].
  replace (- (d - 83 + k)) with ((83 - d) - k) by lia.
  apply half_ulp_scaled; [lia | reflexivity |].
  replace (Z.pos p * 2 ^ (83 - d)) with (q * billion + r) by lia.
  exact Hulp.
Qed.

End TrueDivision.

(** ** Lamports to SOL (C2) *)

(** C2, as amended.  When the balance request is answered with a JSON object
    whose [result] holds an integer [value] of [lamports >= 0], [execute]
    evaluates the true division [lamports / 1_000_000_000]: where it yields
    a float [sol], the reply holds [address], [balance_sol = sol] and
    [balance_lamports], the count as received; where it raises
    [OverflowError], the reply is [{"error": message}].  For every count below
    [2^64] the division yields a float, and that float lies within half a
    unit in the last place of the quotient, ties to even: it is the quotient
    where the quotient is a binary64 number, and the nearest one where it is
    not. *)
Theorem balance_in_sol (w : world) (address : string)
    (data result : list (string * pyval)) (lamports : Z) :
  answered_json w (GetBalanceTool_request w address) (PyDict data) ->
  dict_lookup "result" data = Some (PyDict result) ->
  dict_lookup "value" result = Some (PyInt lamports) ->
  0 <= lamports ->
  (forall sol,
      int_truediv lamports 1000000000 = inr sol ->
      GetBalanceTool_execute w address
      = inr (json_dumps (PyDict [("address", PyStr address);
                                 ("balance_sol", PyFloat sol);
                                 ("balance_lamports", PyInt lamports)])))
  /\
  (forall e,
      int_truediv lamports 1000000000 = inl e ->
      GetBalanceTool_execute w address
      = inr (json_dumps (PyDict [("error", PyStr (str_exn e))])))
  /\
  (lamports < 2 ^ 64 ->
   exists sol,
     int_truediv lamports 1000000000 = inr sol
     /\ nearest_quotient sol lamports 1000000000).
Proof.
  intros (body & (resp & Hu & Hr) & Hl) Hres Hval Hpos.
  assert (Hrun : GetBalanceTool_execute w address
                 = try_except
                     (sol <- py_truediv (PyInt lamports) 1000000000 ;;
                      ret (json_dumps
                             (PyDict [("address", PyStr address);
                                      ("balance_sol", sol);
                                      ("balance_lamports", PyInt lamports)])))
                     (fun e =>
                        ret (json_dumps
                               (PyDict [("error", PyStr (str_exn e))])))).
  { unfold GetBalanceTool_execute.
    rewrite Hu; cbn [bind]. rewrite Hr; cbn [bind]. rewrite Hl; cbn [bind].
    cbn [py_contains bind ret]. unfold has_key. rewrite Hres.
    cbn [py_getitem bind ret]. rewrite Hres. cbn [py_getitem bind ret].
    rewrite Hval. reflexivity. }
  split; [| split].
  - intros sol Hdiv. rewrite Hrun. cbn [py_truediv]. now rewrite Hdiv.
  - intros e Hdiv. rewrite Hrun. cbn [py_truediv]. now rewrite Hdiv.
  - intros Hlt. apply int_truediv_billion. lia.
Qed.

(** The theorem at 1_500_000_000 lamports: the reply holds 1.5, which is the
    quotient itself. *)
Lemma balance_in_sol_witness :
  GetBalanceTool_execute (balance_world 1500000000) "So1anaWa11et"
  = inr (json_dumps (PyDict [("address", PyStr "So1anaWa11et");
                             ("balance_sol", PyFloat one_and_a_half);
                             ("balance_lamports", PyInt 1500000000)]))
  /\ nearest_quotient one_and_a_half 1500000000 1000000000
  /\ 6755399441055744 * 1000000000 = 1500000000 * 2 ^ 52.
Proof.
  destruct (balance_in_sol (balance_world 1500000000) "So1anaWa11et"
              [("jsonrpc", PyStr "2.0");
               ("result", PyDict [("context", PyDict [("slot", PyInt 1)]);
                                  ("value", PyInt 1500000000)]);
               ("id", PyInt 1)]
              [("context", PyDict [("slot", PyInt 1)]);
               ("value", PyInt 1500000000)]
              1500000000)
    as (Hreply & _ & Hnearest).
  - exists (balance_body 1500000000).
    split; [eexists; split; reflexivity | reflexivity].
  - reflexivity.
  - reflexivity.
  - lia.
  - split; [apply (Hreply one_and_a_half); reflexivity |].
    split; [| reflexivity].
    destruct Hnearest as (sol & Hdiv & Hnear); [lia |].
    assert (Hs : sol = one_and_a_half).
    { vm_compute in Hdiv. injection Hdiv as Hs. symmetry. exact Hs. }
    subst sol. exact Hnear.
Defined.

(** C2, as stated, fails, in two ways.  A count of [10^400] is a JSON
    integer and is not negative; its quotient by [10^9] exceeds every
    binary64 number, the division raises [OverflowError], and the reply is an
    error document without [balance_sol] or [balance_lamports].  For a count
    of one lamport the reply holds the float [4835703278458517 * 2^-82],
    which is near [10^-9] and is not [10^-9]. *)
Lemma balance_overflow_and_rounding :
  answered_json (balance_world (10 ^ 400))
    (GetBalanceTool_request (balance_world (10 ^ 400)) "So1anaWa11et")
    (balance_data (10 ^ 400))
  /\ 0 <= 10 ^ 400
  /\ GetBalanceTool_execute (balance_world (10 ^ 400)) "So1anaWa11et"
     = inr (json_dumps
              (PyDict [("error",
                        PyStr "integer division result too large for a float")]))
  /\ ~ (exists sol,
          GetBalanceTool_execute (balance_world (10 ^ 400)) "So1anaWa11et"
          = inr (json_dumps (PyDict [("address", PyStr "So1anaWa11et");
                                     ("balance_sol", PyFloat sol);
                                     ("balance_lamports", PyInt (10 ^ 400))])))
  /\ GetBalanceTool_execute (balance_world 1) "So1anaWa11et"
     = inr (json_dumps
              (PyDict [("address", PyStr "So1anaWa11et");
                       ("balance_sol",
                        PyFloat (S754_finite false 4835703278458517 (-82)));
                       ("balance_lamports", PyInt 1)]))
  /\ 4835703278458517 * 1000000000 <> 1 * 2 ^ 82.
Proof.
  assert (Hex : GetBalanceTool_execute (balance_world (10 ^ 400)) "So1anaWa11et"
                = inr (json_dumps
                         (PyDict [("error",
                                   PyStr "integer division result too large for a float")]))).
  { vm_compute. reflexivity. }
  split; [| split; [| split; [| split; [| split]]]].
  - exists (balance_body (10 ^ 400)). split.
    + eexists. split; reflexivity.
    + unfold balance_world, network, json_loads, loads_of.
      now rewrite String.eqb_refl.
  - apply Z.pow_nonneg. lia.
  - exact Hex.
  - intros (sol & Hsol). rewrite Hex in Hsol. discriminate.
  - reflexivity.
  - discriminate.
Qed.

(** * Further properties of the tools *)

(** ** Faults of the profile lookup and of the registration *)

(** X1.  When the profile lookup meets status 404, whatever reason phrase and
    body the response carries, [LookupAgentTool.execute] returns exactly
    [{"error": "Agent not found"}]; for every other fault [e] of the request
    or of the read it returns [{"error": str(e)}]. *)
Theorem lookup_fault_reply (w : world) (wallet : string) :
  (forall msg body,
      request_fault w (url_request (agents_url wallet))
        (HTTPError 404 msg body) ->
      LookupAgentTool_execute w wallet
      = inr (json_dumps (PyDict [("error", PyStr "Agent not found")])))
  /\
  (forall e,
      request_fault w (url_request (agents_url wallet)) e
      \/ read_fault w (url_request (agents_url wallet)) e ->
      is_404 e = false ->
      LookupAgentTool_execute w wallet
      = inr (json_dumps (PyDict [("error", PyStr (str_exn e))]))).
Proof.
  split.
  - intros msg body H.
    apply (fault_handled w (LookupAgent wallet) _ _ eq_refl (or_introl H)).
  - intros e H H404.
    change (LookupAgentTool_execute w wallet)
      with (execute w (LookupAgent wallet)).
    rewrite (fault_handled w (LookupAgent wallet) _ e eq_refl H).
    simpl. now rewrite H404.
Qed.

(** The theorem at a 404 and at a 503. *)
Lemma lookup_fault_reply_witness :
  LookupAgentTool_execute (not_found_world "[1, 2, 3]") "So1anaWa11et"
  = inr (json_dumps (PyDict [("error", PyStr "Agent not found")]))
  /\
  LookupAgentTool_execute unavailable_world "So1anaWa11et"
  = inr (json_dumps
           (PyDict [("error", PyStr "HTTP Error 503: Service Unavailable")])).
Proof.
  split.
  - apply (proj1 (lookup_fault_reply (not_found_world "[1, 2, 3]") "So1anaWa11et")
             "Not Found" "[1, 2, 3]").
    reflexivity.
  - apply (proj2 (lookup_fault_reply unavailable_world "So1anaWa11et")
             (HTTPError 503 "Service Unavailable" "")).
    + left. reflexivity.
    + reflexivity.
Defined.

(** X2.  [RegisterAgentTool.execute] has one handler: for every fault [e] of
    the request, of the read or of the parse it returns
    [{"success": false, "error": str(e)}]; an HTTP error status, 404 and 409
    included, appears as ["HTTP Error <code>: <reason>"] and the body of the
    error response is not looked at. *)
Theorem register_fault_reply (w : world) (wallet name : string)
    (description : option string) :
  (forall e,
      request_fault w (RegisterAgentTool_request wallet name description) e
      \/ read_fault w (RegisterAgentTool_request wallet name description) e
      \/ malformed_json w (RegisterAgentTool_request wallet name description) e ->
      RegisterAgentTool_execute w wallet name description
      = inr (json_dumps (PyDict [("success", PyBool false);
                                 ("error", PyStr (str_exn e))])))
  /\
  (forall code msg body,
      request_fault w (RegisterAgentTool_request wallet name description)
        (HTTPError code msg body) ->
      RegisterAgentTool_execute w wallet name description
      = inr (json_dumps
               (PyDict [("success", PyBool false);
                        ("error",
                         PyStr ("HTTP Error " ++ decimal code ++ ": " ++ msg))]))).
Proof.
  assert (Hall : forall e,
             request_fault w (RegisterAgentTool_request wallet name description) e
             \/ read_fault w (RegisterAgentTool_request wallet name description) e
             \/ malformed_json w
                  (RegisterAgentTool_request wallet name description) e ->
             RegisterAgentTool_execute w wallet name description
             = inr (json_dumps (PyDict [("success", PyBool false);
                                        ("error", PyStr (str_exn e))]))).
  { intros e [H | [H | H]].
    - apply (fault_handled w (RegisterAgent wallet name description) _ e eq_refl).
      now left.
    - apply (fault_handled w (RegisterAgent wallet name description) _ e eq_refl).
      now right.
    - now apply (malformed_handled w (RegisterAgent wallet name description)
                   _ e eq_refl). }
  split; [exact Hall |].
  intros code msg body H.
  apply (Hall (HTTPError code msg body)). now left.
Qed.

(** The theorem at a registration refused with status 409. *)
Lemma register_fault_reply_witness :
  RegisterAgentTool_execute conflict_world "So1anaWa11et" "Bot1" None
  = inr (json_dumps (PyDict [("success", PyBool false);
                             ("error", PyStr "HTTP Error 409: Conflict")])).
Proof.
  apply (proj2 (register_fault_reply conflict_world "So1anaWa11et" "Bot1" None)
           409 "Conflict" "{}").
  reflexivity.
Defined.

(** ** Bodies that are JSON but not an object *)

Lemma py_get_not_dict (v : pyval) (k : string) (default : pyval) :
  is_dict v = false ->
  py_get v k default = inl (Exc "AttributeError" (no_get v)).
Proof.
  destruct v; simpl; intros H; try reflexivity; discriminate.
Qed.

(** X3.  When the body parses as JSON but not as an object, the first
    [.get] raises [AttributeError]: [VerifyAgentTool.execute] returns
    [verified: false] and [RegisterAgentTool.execute] returns
    [success: false], each with the message
    ["'<type>' object has no attribute 'get'"] that names the Python type of
    the parsed value. *)
Theorem non_object_body_reply (w : world) (v : pyval) :
  is_dict v = false ->
  (forall wallet,
      answered_json w (url_request (agents_url wallet)) v ->
      VerifyAgentTool_execute w wallet
      = inr (json_dumps (PyDict [("verified", PyBool false);
                                 ("error", PyStr (no_get v))])))
  /\
  (forall wallet name description,
      answered_json w (RegisterAgentTool_request wallet name description) v ->
      RegisterAgentTool_execute w wallet name description
      = inr (json_dumps (PyDict [("success", PyBool false);
                                 ("error", PyStr (no_get v))]))).
Proof.
  intros Hv. split.
  - intros wallet (body & (resp & Hu & Hr) & Hl).
    unfold VerifyAgentTool_execute.
    rewrite Hu; cbn [bind]. rewrite Hr; cbn [bind]. rewrite Hl; cbn [bind].
    rewrite (py_get_not_dict v "name" PyNone Hv). reflexivity.
  - intros wallet name description (body & (resp & Hu & Hr) & Hl).
    unfold RegisterAgentTool_execute.
    rewrite Hu; cbn [bind]. rewrite Hr; cbn [bind]. rewrite Hl; cbn [bind].
    rewrite (py_get_not_dict v "wallet" PyNone Hv). reflexivity.
Qed.

(** The theorem at the body [null]. *)
Lemma non_object_body_reply_witness :
  VerifyAgentTool_execute null_world "So1anaWa11et"
  = inr (json_dumps
           (PyDict [("verified", PyBool false);
                    ("error",
                     PyStr "'NoneType' object has no attribute 'get'")]))
  /\
  RegisterAgentTool_execute null_world "So1anaWa11et" "Bot1" None
  = inr (json_dumps
           (PyDict [("success", PyBool false);
                    ("error",
                     PyStr "'NoneType' object has no attribute 'get'")])).
Proof.
  pose proof (non_object_body_reply null_world PyNone eq_refl)
    as (Hverify & Hregister).
  split.
  - apply Hverify. exists "null".
    split; [eexists; split; reflexivity | reflexivity].
  - apply Hregister. exists "null".
    split; [eexists; split; reflexivity | reflexivity].
Defined.

(** ** The balance tool on unexpected answers *)

Lemma prefix_append (s post : string) : prefix s (s ++ post) = true.
Proof.
  induction s as [| c s IH]; simpl.
  - now destruct post.
  - destruct (ascii_dec c c) as [_ | Hn]; [exact IH | congruence].
Qed.

Lemma prefix_inv (s1 s2 : string) :
  prefix s1 s2 = true -> exists post, s2 = s1 ++ post.
Proof.
  revert s2. induction s1 as [| c s1 IH]; intros s2 H.
  - now exists s2.
  - destruct s2 as [| c' s2]; simpl in H; [discriminate |].
    destruct (ascii_dec c c') as [<- | _]; [| discriminate].
    destruct (IH s2 H) as (post & ->). now exists post.
Qed.

Lemma str_contains_unfold (needle hay : string) :
  str_contains needle hay
  = if prefix needle hay then true
    else match hay with
         | EmptyString => false
         | String _ rest => str_contains needle rest
         end.
Proof. destruct hay; reflexivity. Qed.

Lemma str_contains_spec (needle hay : string) :
  str_contains needle hay = true <-> occurs_in needle hay.
Proof.
  split.
  - induction hay as [| c hay IH]; rewrite str_contains_unfold;
      destruct (prefix needle _) eqn:Hp; intros H.
    + destruct (prefix_inv _ _ Hp) as (post & ->). now exists "", post.
    + discriminate.
    + destruct (prefix_inv _ _ Hp) as (post & ->). now exists "", post.
    + destruct (IH H) as (pre & post & ->). now exists (String c pre), post.
  - intros (pre & post & ->).
    induction pre as [| c pre IH]; rewrite str_contains_unfold.
    + simpl. now rewrite prefix_append.
    + destruct (prefix needle _); [reflexivity | exact IH].
Qed.

Lemma existsb_is_str (k : string) (xs : list pyval) :
  existsb (is_str k) xs = true <-> In (PyStr k) xs.
Proof.
  rewrite existsb_exists. split.
  - intros (x & Hin & Hx). destruct x; try discriminate.
    simpl in Hx. apply String.eqb_eq in Hx. now subst.
  - intros Hin. exists (PyStr k). split; [exact Hin |].
    simpl. apply String.eqb_refl.
Qed.

(** X4.  When the balance request is answered with JSON that is not an
    object, [GetBalanceTool.execute] returns [{"error": message}] and never a
    balance.  For [null], a boolean or a number the membership test raises
    and the message is ["argument of type '<type>' is not iterable"]; a list
    that holds the string ["result"], or a string in which ["result"] occurs,
    passes the test and fails at the subscript; any other list or string
    fails at [.get]. *)
Theorem balance_non_object_reply (w : world) (address : string) (v : pyval) :
  is_dict v = false ->
  answered_json w (GetBalanceTool_request w address) v ->
  exists message,
    GetBalanceTool_execute w address
    = inr (json_dumps (PyDict [("error", PyStr message)]))
    /\ match v with
       | PyList xs =>
           (In (PyStr "result") xs ->
            message = "list indices must be integers or slices, not str")
           /\ (~ In (PyStr "result") xs -> message = no_get v)
       | PyStr s =>
           (occurs_in "result" s ->
            message = "string indices must be integers, not 'str'")
           /\ (~ occurs_in "result" s -> message = no_get v)
       | _ =>
           message = "argument of type '" ++ type_name v ++ "' is not iterable"
       end.
Proof.
  intros Hv (body & (resp & Hu & Hr) & Hl).
  unfold GetBalanceTool_execute.
  rewrite Hu; cbn [bind]. rewrite Hr; cbn [bind]. rewrite Hl; cbn [bind].
  destruct v as [| b | n | f | s | xs | items]; try discriminate;
    try (eexists; split; reflexivity).
  - cbn [py_contains bind ret].
    destruct (str_contains "result" s) eqn:Hc.
    + eexists. split; [reflexivity |]. split; [reflexivity |].
      intros Hn. exfalso. apply Hn. now apply str_contains_spec.
    + eexists. split; [reflexivity |]. split; [| reflexivity].
      intros Hs. apply str_contains_spec in Hs. congruence.
  - cbn [py_contains bind ret].
    destruct (existsb (is_str "result") xs) eqn:Hc.
    + eexists. split; [reflexivity |]. split; [reflexivity |].
      intros Hn. exfalso. apply Hn. now apply existsb_is_str.
    + eexists. split; [reflexivity |]. split; [| reflexivity].
      intros Hs. apply existsb_is_str in Hs. congruence.
Qed.

(** The theorem at the array that holds ["result"]. *)
Lemma balance_non_object_reply_witness :
  GetBalanceTool_execute result_list_world "So1anaWa11et"
  = inr (json_dumps
           (PyDict [("error",
                     PyStr "list indices must be integers or slices, not str")])).
Proof.
  destruct (balance_non_object_reply result_list_world "So1anaWa11et"
              (PyList [PyStr "result"]) eq_refl)
    as (message & Hex & Hin & _).
  - eexists. split; [eexists; split; reflexivity | reflexivity].
  - rewrite Hex, Hin; [reflexivity | now left].
Defined.

Lemma balance_with_result (w : world) (address : string)
    (data : list (string * pyval)) (result : pyval) :
  answered_json w (GetBalanceTool_request w address) (PyDict data) ->
  dict_lookup "result" data = Some result ->
  GetBalanceTool_execute w address
  = try_except
      (lamports <- py_getitem result "value" ;;
       sol <- py_truediv lamports 1000000000 ;;
       ret (json_dumps (PyDict [("address", PyStr address);
                                ("balance_sol", sol);
                                ("balance_lamports", lamports)])))
      (fun e => ret (json_dumps (PyDict [("error", PyStr (str_exn e))]))).
Proof.
  intros (body & (resp & Hu & Hr) & Hl) Hres.
  unfold GetBalanceTool_execute.
  rewrite Hu; cbn [bind]. rewrite Hr; cbn [bind]. rewrite Hl; cbn [bind].
  cbn [py_contains bind ret]. unfold has_key. rewrite Hres.
  cbn [py_getitem bind ret]. rewrite Hres. reflexivity.
Qed.

(** X5.  When the answer has a [result] member of the wrong shape,
    [GetBalanceTool.execute] returns the message of the exception met:
    for a [result] that is not an object, that of the failed subscript; for
    an object without [value], the [KeyError] text ['value'] alone; for a
    [value] that is not a number, ["unsupported operand type(s) for /: ..."].
    An [error] member of the answer plays no part. *)
Theorem balance_malformed_result (w : world) (address : string)
    (data : list (string * pyval)) :
  answered_json w (GetBalanceTool_request w address) (PyDict data) ->
  (forall result,
      dict_lookup "result" data = Some result ->
      is_dict result = false ->
      GetBalanceTool_execute w address
      = inr (json_dumps
               (PyDict [("error",
                         PyStr match result with
                               | PyList _ =>
                                   "list indices must be integers or slices, not str"
                               | PyStr _ =>
                                   "string indices must be integers, not 'str'"
                               | _ => "'" ++ type_name result
                                      ++ "' object is not subscriptable"
                               end)])))
  /\
  (forall members,
      dict_lookup "result" data = Some (PyDict members) ->
      dict_lookup "value" members = None ->
      GetBalanceTool_execute w address
      = inr (json_dumps (PyDict [("error", PyStr "'value'")])))
  /\
  (forall members value,
      dict_lookup "result" data = Some (PyDict members) ->
      dict_lookup "value" members = Some value ->
      is_number value = false ->
      GetBalanceTool_execute w address
      = inr (json_dumps
               (PyDict [("error",
                         PyStr ("unsupported operand type(s) for /: '"
                                ++ type_name value ++ "' and 'int'"))]))).
Proof.
  intros Ha. split; [| split].
  - intros result Hres Hd.
    rewrite (balance_with_result w address data result Ha Hres).
    destruct result; try discriminate; reflexivity.
  - intros members Hres Hval.
    rewrite (balance_with_result w address data _ Ha Hres).
    cbn [py_getitem]. rewrite Hval. reflexivity.
  - intros members value Hres Hval Hn.
    rewrite (balance_with_result w address data _ Ha Hres).
    cbn [py_getitem]. rewrite Hval. cbn [bind ret].
    destruct value; try discriminate; reflexivity.
Qed.

(** The theorem at an answer that has an [error] member beside a [null]
    [result], and at a [result] without [value]. *)
Lemma balance_malformed_result_witness :
  GetBalanceTool_execute null_result_world "So1anaWa11et"
  = inr (json_dumps
           (PyDict [("error", PyStr "'NoneType' object is not subscriptable")]))
  /\
  GetBalanceTool_execute no_value_world "So1anaWa11et"
  = inr (json_dumps (PyDict [("error", PyStr "'value'")])).
Proof.
  split.
  - refine (proj1 (balance_malformed_result null_result_world "So1anaWa11et"
                     [("jsonrpc", PyStr "2.0"); ("result", PyNone);
                      ("error", invalid_params); ("id", PyInt 1)] _)
              PyNone eq_refl eq_refl).
    exists null_result_body.
    split; [eexists; split; reflexivity | reflexivity].
  - refine (proj1 (proj2 (balance_malformed_result no_value_world "So1anaWa11et"
                            [("jsonrpc", PyStr "2.0");
                             ("result",
                              PyDict [("context", PyDict [("slot", PyInt 1)])]);
                             ("id", PyInt 1)] _))
              [("context", PyDict [("slot", PyInt 1)])] eq_refl eq_refl).
    exists no_value_body.
    split; [eexists; split; reflexivity | reflexivity].
Defined.

(** ** The shape of every reply *)


Lemma py_get_inr (v : pyval) (k : string) (default x : pyval) :
  py_get v k default = inr x -> exists items, v = PyDict items.
Proof.
  destruct v; simpl; try discriminate. intros _. now eexists.
Qed.


(** X7.  Whatever the environment does, [VerifyAgentTool.execute] returns a
    JSON object whose [verified] field is a boolean.  When it is [false] the
    object holds [verified] and [error] only; when it is [true] the object
    holds the eight fields of a verification record and the registry did
    answer the request with a body that parses as a JSON object. *)
Theorem verify_reply_shape (w : world) (wallet : string) :
  exists items verified,
    VerifyAgentTool_execute w wallet = inr (json_dumps (PyDict items))
    /\ dict_lookup "verified" items = Some (PyBool verified)
    /\ if verified then
         map fst items = verification_fields
         /\ exists agent,
             answered_json w (url_request (agents_url wallet)) (PyDict agent)
       else map fst items = ["verified"; "error"].
Proof.
  assert (Hfail : forall e,
             exists items verified,
               (match e with
                | HTTPError code _ _ =>
                    if Z.eqb code 404 then
                      ret (json_dumps
                             (PyDict [("verified", PyBool false);
                                      ("error",
                                       PyStr "Agent not found in SAID registry")]))
                    else
                      ret (json_dumps (PyDict [("verified", PyBool false);
                                               ("error", PyStr (str_exn e))]))
                | _ =>
                    ret (json_dumps (PyDict [("verified", PyBool false);
                                             ("error", PyStr (str_exn e))]))
                end : M text) = inr (json_dumps (PyDict items))
               /\ dict_lookup "verified" items = Some (PyBool verified)
               /\ if verified then
                    map fst items = verification_fields
                    /\ exists agent,
                        answered_json w (url_request (agents_url wallet))
                          (PyDict agent)
                  else map fst items = ["verified"; "error"]).
  { intros [code msg body | cls msg]; [destruct (Z.eqb code 404) |];
      eexists; exists false;
      (split; [reflexivity |]); (split; [reflexivity | reflexivity]). }
  unfold VerifyAgentTool_execute.
  destruct (urlopen w (url_request (agents_url wallet)) 10) as [e | resp] eqn:Hu;
    cbn [bind try_except]; [apply Hfail |].
  destruct (read_decode resp) as [e | body] eqn:Hr;
    cbn [bind try_except]; [apply Hfail |].
  destruct (json_loads w body) as [e | v] eqn:Hl;
    cbn [bind try_except]; [apply Hfail |].
  destruct (py_get v "name" PyNone) as [e | x] eqn:Hget;
    cbn [bind try_except]; [apply Hfail |].
  destruct (py_get_inr _ _ _ _ Hget) as (agent & ->).
  rewrite !py_get_dict. cbn [bind try_except ret].
  eexists. exists true.
  split; [reflexivity |]. split; [reflexivity |].
  split; [reflexivity |].
  exists agent, body. split; [| exact Hl]. exists resp. now split.
Qed.

(** X8.  Whatever the environment does, [RegisterAgentTool.execute] returns a
    JSON object whose [success] field is a boolean.  When it is [false] the
    object holds [success] and [error] only; when it is [true] the object
    holds [success], [wallet], [pda], [profile] and [status], the status is
    ["PENDING"], and the registry did answer the POST with a body that parses
    as a JSON object. *)
Theorem register_reply_shape (w : world) (wallet name : string)
    (description : option string) :
  exists items success,
    RegisterAgentTool_execute w wallet name description
    = inr (json_dumps (PyDict items))
    /\ dict_lookup "success" items = Some (PyBool success)
    /\ if success then
         map fst items = ["success"; "wallet"; "pda"; "profile"; "status"]
         /\ dict_lookup "status" items = Some (PyStr "PENDING")
         /\ exists result,
             answered_json w (RegisterAgentTool_request wallet name description)
               (PyDict result)
       else map fst items = ["success"; "error"].
Proof.
  assert (Hfail : forall e,
             exists items success,
               (ret (json_dumps (PyDict [("success", PyBool false);
                                         ("error", PyStr (str_exn e))]))
                : M text) = inr (json_dumps (PyDict items))
               /\ dict_lookup "success" items = Some (PyBool success)
               /\ if success then
                    map fst items
                    = ["success"; "wallet"; "pda"; "profile"; "status"]
                    /\ dict_lookup "status" items = Some (PyStr "PENDING")
                    /\ exists result,
                        answered_json w
                          (RegisterAgentTool_request wallet name description)
                          (PyDict result)
                  else map fst items = ["success"; "error"]).
  { intros e. eexists. exists false.
    split; [reflexivity |]. split; [reflexivity | reflexivity]. }
  unfold RegisterAgentTool_execute.
  destruct (urlopen w (RegisterAgentTool_request wallet name description) 10)
    as [e | resp] eqn:Hu; cbn [bind try_except]; [apply Hfail |].
  destruct (read_decode resp) as [e | body] eqn:Hr;
    cbn [bind try_except]; [apply Hfail |].
  destruct (json_loads w body) as [e | v] eqn:Hl;
    cbn [bind try_except]; [apply Hfail |].
  destruct (py_get v "wallet" PyNone) as [e | x] eqn:Hget;
    cbn [bind try_except]; [apply Hfail |].
  destruct (py_get_inr _ _ _ _ Hget) as (result & ->).
  rewrite !py_get_dict. cbn [bind try_except ret].
  eexists. exists true.
  split; [reflexivity |]. split; [reflexivity |].
  split; [reflexivity |]. split; [reflexivity |].
  exists result, body. split; [| exact Hl]. exists resp. now split.
Qed.

(** X9.  [LookupAgentTool.execute] and [GetTrustScoreTool.execute] each
    return either the body of the answer, unchanged, and then the request
    was answered with that body, or an object with the single field [error],
    and then the request was not answered. *)
Theorem passthrough_reply_shape (w : world) (wallet : string) :
  ((exists body,
       answered w (url_request (agents_url wallet)) body
       /\ LookupAgentTool_execute w wallet = inr (verbatim body))
   \/ (exists message,
          LookupAgentTool_execute w wallet
          = inr (json_dumps (PyDict [("error", PyStr message)]))
          /\ forall body, ~ answered w (url_request (agents_url wallet)) body))
  /\
  ((exists body,
       answered w (url_request (trust_url wallet)) body
       /\ GetTrustScoreTool_execute w wallet = inr (verbatim body))
   \/ (exists message,
          GetTrustScoreTool_execute w wallet
          = inr (json_dumps (PyDict [("error", PyStr message)]))
          /\ forall body, ~ answered w (url_request (trust_url wallet)) body)).
Proof.
  split.
  - unfold LookupAgentTool_execute, answered.
    destruct (urlopen w (url_request (agents_url wallet)) 10)
      as [e | resp] eqn:Hu; cbn [bind try_except].
    + right. destruct e as [code msg errbody | cls msg];
        [destruct (Z.eqb code 404) |];
        eexists; (split; [reflexivity |]);
        intros body (resp & Hresp & _); discriminate.
    + destruct (read_decode resp) as [e | body] eqn:Hr; cbn [bind try_except].
      * right. destruct e as [code msg errbody | cls msg];
          [destruct (Z.eqb code 404) |];
          eexists; (split; [reflexivity |]);
          intros body (resp' & Hresp & Hread);
          inversion Hresp; subst resp'; congruence.
      * left. exists body. split; [| reflexivity]. exists resp. now split.
  - unfold GetTrustScoreTool_execute, answered.
    destruct (urlopen w (url_request (trust_url wallet)) 10)
      as [e | resp] eqn:Hu; cbn [bind try_except].
    + right. eexists. split; [reflexivity |].
      intros body (resp & Hresp & _). discriminate.
    + destruct (read_decode resp) as [e | body] eqn:Hr; cbn [bind try_except].
      * right. eexists. split; [reflexivity |].
        intros body (resp' & Hresp & Hread).
        inversion Hresp; subst resp'; congruence.
      * left. exists body. split; [| reflexivity]. exists resp. now split.
Qed.

(** ** Every run of the identity scan *)

Lemma scan_cases (w : world) (paths : list Path) :
  (exists before p after content,
      paths = (before ++ p :: after)%list
      /\ Forall (unavailable w) before
      /\ available w p content
      /\ GetMyIdentityTool_scan w paths = inr (Some content))
  \/ (Forall (unavailable w) paths
      /\ GetMyIdentityTool_scan w paths = inr None)
  \/ (exists before p after e,
         paths = (before ++ p :: after)%list
         /\ Forall (unavailable w) before
         /\ path_exists w p = inl e
         /\ GetMyIdentityTool_scan w paths = inl e).
Proof.
  induction paths as [| p rest IH].
  - right. left. split; [constructor | reflexivity].
  - assert (Hskip : unavailable w p ->
                    GetMyIdentityTool_scan w (p :: rest)
                    = GetMyIdentityTool_scan w rest).
    { intros Hp. apply (scan_skips w [p] rest). now constructor. }
    assert (Hnext : unavailable w p ->
              (exists before q after content,
                  (p :: rest) = (before ++ q :: after)%list
                  /\ Forall (unavailable w) before
                  /\ available w q content
                  /\ GetMyIdentityTool_scan w (p :: rest) = inr (Some content))
              \/ (Forall (unavailable w) (p :: rest)
                  /\ GetMyIdentityTool_scan w (p :: rest) = inr None)
              \/ (exists before q after e,
                     (p :: rest) = (before ++ q :: after)%list
                     /\ Forall (unavailable w) before
                     /\ path_exists w q = inl e
                     /\ GetMyIdentityTool_scan w (p :: rest) = inl e)).
    { intros Hp. rewrite (Hskip Hp).
      destruct IH as [(before & q & after & content & -> & Hb & Ha & Hs)
                     | [(Hall & Hs)
                       | (before & q & after & e & -> & Hb & Hex & Hs)]].
      - left. exists (p :: before), q, after, content.
        split; [reflexivity |]. split; [now constructor |]. now split.
      - right. left. split; [now constructor | exact Hs].
      - right. right. exists (p :: before), q, after, e.
        split; [reflexivity |]. split; [now constructor |]. now split. }
    destruct (path_exists w p) as [e | found] eqn:Hex.
    + right. right. exists [], p, rest, e.
      split; [reflexivity |]. split; [constructor |]. split; [exact Hex |].
      simpl. now rewrite Hex.
    + destruct found.
      * destruct (open_and_read w p) as [e | content] eqn:Hread.
        -- apply Hnext. right. split; [exact Hex | now exists e].
        -- left. exists [], p, rest, content.
           split; [reflexivity |]. split; [constructor |].
           split; [now split |]. simpl. now rewrite Hex, Hread.
      * apply Hnext. now left.
Qed.

(** X10.  Every run of [GetMyIdentityTool.execute] is one of four.
    [Path.home()] raises, and [execute] raises the same exception.  Or the
    three candidates are determined and: the first candidate that exists and
    is opened and read has its content returned, every candidate before it
    having been reported missing or having failed to open or read; or every
    candidate was so, and the "SAID identity not found" document is returned;
    or [exists()] raises on a candidate, every candidate before it having
    yielded nothing, and [execute] raises the same exception. *)
Theorem identity_reply_cases (w : world) (workspace : Path) :
  (exists e,
      home w = inl e /\ GetMyIdentityTool_execute w workspace = inl e)
  \/
  (exists paths,
      GetMyIdentityTool_paths w workspace = inr paths
      /\ ((exists before p after content,
              paths = (before ++ p :: after)%list
              /\ Forall (unavailable w) before
              /\ available w p content
              /\ GetMyIdentityTool_execute w workspace
                 = inr (verbatim content))
          \/ (Forall (unavailable w) paths
              /\ GetMyIdentityTool_execute w workspace
                 = inr (json_dumps
                          (PyDict [("error",
                                    PyStr "SAID identity not found. Register first with register_said_agent.")])))
          \/ (exists before p after e,
                 paths = (before ++ p :: after)%list
                 /\ Forall (unavailable w) before
                 /\ path_exists w p = inl e
                 /\ GetMyIdentityTool_execute w workspace = inl e))).
Proof.
  unfold GetMyIdentityTool_execute, GetMyIdentityTool_paths.
  destruct (home w) as [e | h] eqn:Hhome; cbn [bind ret].
  - left. now exists e.
  - right. eexists. split; [reflexivity |].
    destruct (scan_cases w
                [joinpath workspace "said.json";
                 joinpath (joinpath h ".nanobot") "said.json";
                 joinpath (joinpath (joinpath h ".config") "said")
                   "identity.json"])
      as [(before & p & after & content & Hp & Hb & Ha & Hs)
         | [(Hall & Hs) | (before & p & after & e & Hp & Hb & Hex & Hs)]];
      rewrite Hs; cbn [bind ret].
    + left. exists before, p, after, content.
      split; [exact Hp |]. split; [exact Hb |]. split; [exact Ha |].
      reflexivity.
    + right. left. split; [exact Hall | reflexivity].
    + right. right. exists before, p, after, e.
      split; [exact Hp |]. split; [exact Hb |]. split; [exact Hex |].
      reflexivity.
Qed.

(** X12.  A tool built without a workspace scans from the working directory:
    when [Path.cwd()] and [Path.home()] return and [<cwd>/said.json] exists
    and is read, its content is the reply, whatever the files under the home
    directory hold; a workspace that is given takes the place of the working
    directory, which is then not asked for. *)
Theorem identity_default_workspace (w : world) :
  (forall dir h content,
      cwd w = inr dir ->
      home w = inr h ->
      available w (joinpath dir "said.json") content ->
      exists workspace,
        GetMyIdentityTool_init w None = inr workspace
        /\ GetMyIdentityTool_execute w workspace = inr (verbatim content))
  /\
  (forall given h content,
      home w = inr h ->
      available w (joinpath given "said.json") content ->
      exists workspace,
        GetMyIdentityTool_init w (Some given) = inr workspace
        /\ GetMyIdentityTool_execute w workspace = inr (verbatim content)).
Proof.
  split.
  - intros dir h content Hcwd Hhome (Hex & Hread).
    exists dir. split; [exact Hcwd |].
    unfold GetMyIdentityTool_execute, GetMyIdentityTool_paths.
    rewrite Hhome; cbn [bind ret GetMyIdentityTool_scan].
    rewrite Hex; cbn [bind]. now rewrite Hread.
  - intros given h content Hhome (Hex & Hread).
    exists given. split; [reflexivity |].
    unfold GetMyIdentityTool_execute, GetMyIdentityTool_paths.
    rewrite Hhome; cbn [bind ret GetMyIdentityTool_scan].
    rewrite Hex; cbn [bind]. now rewrite Hread.
Qed.

(** The theorem where the working directory and [~/.nanobot] both hold a
    file. *)
Lemma identity_default_workspace_witness :
  exists workspace,
    GetMyIdentityTool_init two_files_world None = inr workspace
    /\ GetMyIdentityTool_execute two_files_world workspace
       = inr (verbatim "{}").
Proof.
  apply (proj1 (identity_default_workspace two_files_world)
           ["srv"; "bot"] ["home"; "bot"] "{}").
  - reflexivity.
  - reflexivity.
  - split; reflexivity.
Defined.

(** ** The registration payload *)

Lemma default_description_nonempty (name : string) :
  name ++ " - AI Agent" <> "".
Proof. destruct name; discriminate. Qed.

(** X16.  The registration payload holds exactly [wallet], [name] and
    [description], the first two as given, and its [description] is never
    the empty string. *)
Theorem register_payload_shape (wallet name : string)
    (description : option string) :
  exists text,
    RegisterAgentTool_payload wallet name description
    = PyDict [("wallet", PyStr wallet); ("name", PyStr name);
              ("description", PyStr text)]
    /\ text <> "".
Proof.
  eexists. split; [reflexivity |].
  unfold description_or_default.
  destruct (description_arg description) eqn:Hd.
  - apply default_description_nonempty.
  - discriminate.
Qed.

(** ** More on the conversion to SOL *)

Lemma balance_of_value (w : world) (address : string)
    (data members : list (string * pyval)) (value sol : pyval) :
  answered_json w (GetBalanceTool_request w address) (PyDict data) ->
  dict_lookup "result" data = Some (PyDict members) ->
  dict_lookup "value" members = Some value ->
  py_truediv value 1000000000 = inr sol ->
  GetBalanceTool_execute w address
  = inr (json_dumps (PyDict [("address", PyStr address);
                             ("balance_sol", sol);
                             ("balance_lamports", value)])).
Proof.
  intros Ha Hres Hval Hdiv.
  rewrite (balance_with_result w address data _ Ha Hres).
  cbn [py_getitem]. rewrite Hval. cbn [bind ret]. rewrite Hdiv. reflexivity.
Qed.

Lemma int_truediv_finite (a : Z) :
  0 < a < 2 ^ 64 ->
  exists m e,
    int_truediv a 1000000000 = inr (S754_finite false m e)
    /\ nearest_quotient (S754_finite false m e) a billion.
Proof.
  intros Ha.
  destruct (int_truediv_billion a) as (f & Hdiv & Hnear); [lia |].
  destruct f as [[] | | | [] m e]; simpl in Hnear; try contradiction; try lia.
  now exists m, e.
Qed.

(** X17.  A whole number of SOL converts without error: for [k] SOL, that is
    [k * 10^9] lamports below [2^64], [balance_sol] is the float [m * 2^e]
    with [m * 2^e = k] exactly. *)
Theorem whole_sol_exact (w : world) (address : string)
    (data members : list (string * pyval)) (k : Z) :
  answered_json w (GetBalanceTool_request w address) (PyDict data) ->
  dict_lookup "result" data = Some (PyDict members) ->
  dict_lookup "value" members = Some (PyInt (k * 1000000000)) ->
  0 < k ->
  k * 1000000000 < 2 ^ 64 ->
  exists m e,
    GetBalanceTool_execute w address
    = inr (json_dumps
             (PyDict [("address", PyStr address);
                      ("balance_sol", PyFloat (S754_finite false m e));
                      ("balance_lamports", PyInt (k * 1000000000))]))
    /\ e <= 0
    /\ Zpos m = k * 2 ^ (- e).
Proof.
  intros Ha Hres Hval Hk Hlt.
  destruct (int_truediv_finite (k * 1000000000)) as (m & e & Hdiv & Hnear);
    [lia |].
  exists m, e. split; [| split].
  - apply (balance_of_value w address data members _ _ Ha Hres Hval).
    cbn [py_truediv]. rewrite Hdiv. reflexivity.
  - apply Hnear.
  - destruct Hnear as (_ & He & Hhalf & _). unfold billion in Hhalf.
    assert (HP : 0 < 2 ^ (- e)) by (apply Z.pow_pos_nonneg; lia).
    set (P := 2 ^ (- e)) in *.
    replace (Z.pos m * 1000000000 - k * 1000000000 * P)
      with ((Z.pos m - k * P) * 1000000000) in Hhalf by ring.
    rewrite Z.abs_mul in Hhalf. lia.
Qed.

(** The theorem at 2 SOL. *)
Lemma whole_sol_exact_witness :
  exists m e,
    GetBalanceTool_execute (balance_world 2000000000) "So1anaWa11et"
    = inr (json_dumps
             (PyDict [("address", PyStr "So1anaWa11et");
                      ("balance_sol", PyFloat (S754_finite false m e));
                      ("balance_lamports", PyInt (2 * 1000000000))]))
    /\ e <= 0
    /\ Zpos m = 2 * 2 ^ (- e).
Proof.
  apply (whole_sol_exact (balance_world 2000000000) "So1anaWa11et"
           [("jsonrpc", PyStr "2.0");
            ("result", PyDict [("context", PyDict [("slot", PyInt 1)]);
                               ("value", PyInt 2000000000)]);
            ("id", PyInt 1)]
           [("context", PyDict [("slot", PyInt 1)]);
            ("value", PyInt 2000000000)]
           2).
  - exists (balance_body 2000000000).
    split; [eexists; split; reflexivity | reflexivity].
  - reflexivity.
  - reflexivity.
  - lia.
  - lia.
Defined.

Lemma int_truediv_normal (a : Z) :
  0 < a < 2 ^ 64 ->
  exists m e,
    int_truediv a 1000000000 = inr (S754_finite false m e)
    /\ 2 ^ 52 <= Zpos m < 2 ^ 53
    /\ -82 <= e <= -17
    /\ 2 * Z.abs (Zpos m * billion - a * 2 ^ (- e)) <= billion.
Proof.
  intros Ha.
  destruct (div_core_billion a Ha) as (q & r & d & Hcore & Hd & Heq & Hr & Hq).
  unfold int_truediv.
  destruct a as [| p | p]; try lia.
  cbn [Z.abs Z.ltb Z.compare].
  change (Z.pos 1000000000) with billion. rewrite Hcore.
  assert (Hround : exists m k,
             binary_round_aux prec emax false q (d - 83) (new_location billion r)
             = S754_finite false m (d - 83 + k)
             /\ 0 <= k <= 2 /\ 2 ^ 52 <= Zpos m < 2 ^ 53
             /\ half_ulp m k (q * billion + r) billion).
  { destruct (Z.lt_ge_cases q (2 ^ 53)) as [Hlt | Hge].
    - destruct (round_53 q r billion (d - 83)) as (m & k & H1 & H2 & H3 & H4);
        try lia; try reflexivity.
      exists m, k.
      split; [exact H1 |]. split; [lia |]. split; [exact H3 | exact H4].
    - destruct (round_54 q r billion (d - 83)) as (m & k & H1 & H2 & H3 & H4);
        try lia; try reflexivity.
      exists m, k.
      split; [exact H1 |]. split; [lia |]. split; [exact H3 | exact H4]. }
  destruct Hround as (m & k & Hrnd & Hk & Hm & Hulp).
  rewrite Hrnd. exists m, (d - 83 + k).
  split; [reflexivity |]. split; [exact Hm |]. split; [lia |].
  replace (- (d - 83 + k)) with ((83 - d) - k) by lia.
  apply half_ulp_scaled; [lia | reflexivity |].
  replace (Z.pos p * 2 ^ (83 - d)) with (q * billion + r) by lia.
  exact Hulp.
Qed.

(** X18.  A positive 64-bit count never comes back as [0.0], as a subnormal
    or as an infinity: [balance_sol] is a positive float [m * 2^e] with a
    full 53-bit mantissa and [-82 <= e <= -17], that is between [2^-30] and
    [2^36], and it differs from [lamports / 10^9] by at most [2^-53] of its
    own value. *)
Theorem balance_sol_accuracy (w : world) (address : string)
    (data members : list (string * pyval)) (lamports : Z) :
  answered_json w (GetBalanceTool_request w address) (PyDict data) ->
  dict_lookup "result" data = Some (PyDict members) ->
  dict_lookup "value" members = Some (PyInt lamports) ->
  0 < lamports < 2 ^ 64 ->
  exists m e,
    GetBalanceTool_execute w address
    = inr (json_dumps
             (PyDict [("address", PyStr address);
                      ("balance_sol", PyFloat (S754_finite false m e));
                      ("balance_lamports", PyInt lamports)]))
    /\ 2 ^ 52 <= Zpos m < 2 ^ 53
    /\ -82 <= e <= -17
    /\ 2 ^ 53 * Z.abs (Zpos m * 1000000000 - lamports * 2 ^ (- e))
       <= Zpos m * 1000000000.
Proof.
  intros Ha Hres Hval Hrange.
  destruct (int_truediv_normal lamports Hrange)
    as (m & e & Hdiv & Hm & He & Hhalf).
  exists m, e. split; [| split; [exact Hm | split; [exact He |]]].
  - apply (balance_of_value w address data members _ _ Ha Hres Hval).
    cbn [py_truediv]. rewrite Hdiv. reflexivity.
  - unfold billion in Hhalf.
    set (t := Z.abs (Zpos m * 1000000000 - lamports * 2 ^ (- e))) in *.
    lia.
Qed.

(** The theorem at one lamport. *)
Lemma balance_sol_accuracy_witness :
  exists m e,
    GetBalanceTool_execute (balance_world 1) "So1anaWa11et"
    = inr (json_dumps
             (PyDict [("address", PyStr "So1anaWa11et");
                      ("balance_sol", PyFloat (S754_finite false m e));
                      ("balance_lamports", PyInt 1)]))
    /\ 2 ^ 52 <= Zpos m < 2 ^ 53
    /\ -82 <= e <= -17
    /\ 2 ^ 53 * Z.abs (Zpos m * 1000000000 - 1 * 2 ^ (- e))
       <= Zpos m * 1000000000.
Proof.
  apply (balance_sol_accuracy (balance_world 1) "So1anaWa11et"
           [("jsonrpc", PyStr "2.0");
            ("result", PyDict [("context", PyDict [("slot", PyInt 1)]);
                               ("value", PyInt 1)]);
            ("id", PyInt 1)]
           [("context", PyDict [("slot", PyInt 1)]); ("value", PyInt 1)]
           1).
  - exists (balance_body 1).
    split; [eexists; split; reflexivity | reflexivity].
  - reflexivity.
  - reflexivity.
  - lia.
Defined.

Lemma binary_round_aux_opp (q e : Z) (l : location) :
  binary_round_aux prec emax true q e l
  = SFopp (binary_round_aux prec emax false q e l).
Proof.
  unfold binary_round_aux.
  destruct (shr_fexp prec emax q e l) as [mrs' e'].
  destruct (shr_fexp prec emax _ e' loc_Exact) as [mrs'' e''].
  destruct (shr_m mrs'') as [| m | m]; try reflexivity.
  destruct (Z.leb e'' (emax - prec)); reflexivity.
Qed.

Lemma int_truediv_opp (a : Z) (b : positive) (f : spec_float) :
  0 < a ->
  int_truediv a b = inr f ->
  int_truediv (- a) b = inr (SFopp f).
Proof.
  intros Ha. unfold int_truediv.
  destruct a as [| p | p]; try lia.
  cbn [Z.opp Z.abs Z.ltb Z.compare].
  destruct (SFdiv_core_binary prec emax (Z.pos p) 0 (Z.pos b) 0) as [[q e] l].
  rewrite binary_round_aux_opp.
  destruct (binary_round_aux prec emax false q e l);
    cbn [SFopp]; try discriminate; intros H; inversion H; reflexivity.
Qed.

(** X19.  The sign of the count is not checked: for a count [-n] with
    [0 < n < 2^64] the reply holds [balance_lamports = -n] and, for
    [balance_sol], the negative of the float that [n] gives. *)
Theorem negative_lamports_reply (w : world) (address : string)
    (data members : list (string * pyval)) (n : Z) :
  answered_json w (GetBalanceTool_request w address) (PyDict data) ->
  dict_lookup "result" data = Some (PyDict members) ->
  dict_lookup "value" members = Some (PyInt (- n)) ->
  0 < n < 2 ^ 64 ->
  exists m e,
    int_truediv n 1000000000 = inr (S754_finite false m e)
    /\ GetBalanceTool_execute w address
       = inr (json_dumps
                (PyDict [("address", PyStr address);
                         ("balance_sol", PyFloat (S754_finite true m e));
                         ("balance_lamports", PyInt (- n))])).
Proof.
  intros Ha Hres Hval Hrange.
  destruct (int_truediv_normal n Hrange) as (m & e & Hdiv & _).
  exists m, e. split; [exact Hdiv |].
  apply (balance_of_value w address data members _ _ Ha Hres Hval).
  cbn [py_truediv].
  rewrite (int_truediv_opp n 1000000000 _ (proj1 Hrange) Hdiv).
  reflexivity.
Qed.

(** The theorem at minus 1_500_000_000 lamports. *)
Lemma negative_lamports_reply_witness :
  exists m e,
    int_truediv 1500000000 1000000000 = inr (S754_finite false m e)
    /\ GetBalanceTool_execute (balance_world (- 1500000000)) "So1anaWa11et"
       = inr (json_dumps
                (PyDict [("address", PyStr "So1anaWa11et");
                         ("balance_sol", PyFloat (S754_finite true m e));
                         ("balance_lamports", PyInt (- 1500000000))])).
Proof.
  apply (negative_lamports_reply (balance_world (- 1500000000)) "So1anaWa11et"
           [("jsonrpc", PyStr "2.0");
            ("result", PyDict [("context", PyDict [("slot", PyInt 1)]);
                               ("value", PyInt (- 1500000000))]);
            ("id", PyInt 1)]
           [("context", PyDict [("slot", PyInt 1)]);
            ("value", PyInt (- 1500000000))]
           1500000000).
  - exists (balance_body (- 1500000000)).
    split; [eexists; split; reflexivity | reflexivity].
  - reflexivity.
  - reflexivity.
  - lia.
Defined.

(** X20.  A [value] that is a JSON float or a boolean is divided like a
    number and echoed as it came.  A float [x] gives the binary64 quotient
    [x / 1e9], so that NaN gives NaN and an infinity gives the same infinity
    instead of an error; [true] gives the float nearest to [10^-9] and
    [false] gives [0.0]. *)
Theorem non_integer_value_reply (w : world) (address : string)
    (data members : list (string * pyval)) :
  answered_json w (GetBalanceTool_request w address) (PyDict data) ->
  dict_lookup "result" data = Some (PyDict members) ->
  (forall x,
      dict_lookup "value" members = Some (PyFloat x) ->
      GetBalanceTool_execute w address
      = inr (json_dumps
               (PyDict [("address", PyStr address);
                        ("balance_sol",
                         PyFloat (SFdiv prec emax x billion_float));
                        ("balance_lamports", PyFloat x)]))
      /\ (x = S754_nan -> SFdiv prec emax x billion_float = S754_nan)
      /\ (forall s, x = S754_infinity s ->
                    SFdiv prec emax x billion_float = S754_infinity s))
  /\
  (forall t,
      dict_lookup "value" members = Some (PyBool t) ->
      GetBalanceTool_execute w address
      = inr (json_dumps
               (PyDict [("address", PyStr address);
                        ("balance_sol",
                         PyFloat (if t then nano_float else S754_zero false));
                        ("balance_lamports", PyBool t)]))).
Proof.
  intros Ha Hres. split.
  - intros x Hval. split; [| split].
    + apply (balance_of_value w address data members _ _ Ha Hres Hval).
      reflexivity.
    + intros ->. reflexivity.
    + intros s ->. now destruct s.
  - intros t Hval.
    apply (balance_of_value w address data members _ _ Ha Hres Hval).
    now destruct t.
Qed.

(** The theorem at the value [true]. *)
Lemma non_integer_value_reply_witness :
  GetBalanceTool_execute (value_world "true" (PyBool true)) "So1anaWa11et"
  = inr (json_dumps (PyDict [("address", PyStr "So1anaWa11et");
                             ("balance_sol", PyFloat nano_float);
                             ("balance_lamports", PyBool true)])).
Proof.
  refine (proj2 (non_integer_value_reply
                   (value_world "true" (PyBool true))
                   "So1anaWa11et"
                   [("jsonrpc", PyStr "2.0");
                    ("result", PyDict [("context", PyDict [("slot", PyInt 1)]);
                                       ("value", PyBool true)]);
                    ("id", PyInt 1)]
                   [("context", PyDict [("slot", PyInt 1)]);
                    ("value", PyBool true)]
                   _ eq_refl)
            true eq_refl).
  eexists. split; [eexists; split; reflexivity | reflexivity].
Defined.

(** ** Verification and profile lookup together *)

(** X21.  A reply with [verified: true] is a reshaping of what the profile
    lookup returns for the same wallet in the same environment: the lookup
    hands back a body, the body parses as a JSON object, and the six copied
    fields of the verification record are that object's [.get] values. *)
Theorem verified_record_from_lookup (w : world) (wallet : string)
    (items : list (string * pyval)) :
  VerifyAgentTool_execute w wallet = inr (json_dumps (PyDict items)) ->
  dict_lookup "verified" items = Some (PyBool true) ->
  exists body agent,
    LookupAgentTool_execute w wallet = inr (verbatim body)
    /\ json_loads w body = inr (PyDict agent)
    /\ items = [("verified", PyBool true);
                ("name", dict_get "name" agent);
                ("wallet", dict_get "wallet" agent);
                ("pda", dict_get "pda" agent);
                ("isVerified", dict_get "isVerified" agent);
                ("reputationScore", dict_get "reputationScore" agent);
                ("description", dict_get "description" agent);
                ("profile",
                 PyStr ("https://www.saidprotocol.com/agent.html?wallet="
                        ++ wallet))].
Proof.
  assert (Hfail : forall e,
             (match e with
              | HTTPError code _ _ =>
                  if Z.eqb code 404 then
                    ret (json_dumps
                           (PyDict [("verified", PyBool false);
                                    ("error",
                                     PyStr "Agent not found in SAID registry")]))
                  else
                    ret (json_dumps (PyDict [("verified", PyBool false);
                                             ("error", PyStr (str_exn e))]))
              | _ =>
                  ret (json_dumps (PyDict [("verified", PyBool false);
                                           ("error", PyStr (str_exn e))]))
              end : M text) = inr (json_dumps (PyDict items)) ->
             dict_lookup "verified" items = Some (PyBool true) -> False).
  { intros [code msg body | cls msg]; [destruct (Z.eqb code 404) |];
      intros H Hv; inversion H; subst items; discriminate. }
  unfold VerifyAgentTool_execute, LookupAgentTool_execute.
  destruct (urlopen w (url_request (agents_url wallet)) 10) as [e | resp];
    cbn [bind try_except]; [intros H Hv; destruct (Hfail e H Hv) |].
  destruct (read_decode resp) as [e | body];
    cbn [bind try_except]; [intros H Hv; destruct (Hfail e H Hv) |].
  destruct (json_loads w body) as [e | v] eqn:Hl;
    cbn [bind try_except]; [intros H Hv; destruct (Hfail e H Hv) |].
  destruct (py_get v "name" PyNone) as [e | x] eqn:Hget;
    cbn [bind try_except]; [intros H Hv; destruct (Hfail e H Hv) |].
  destruct (py_get_inr _ _ _ _ Hget) as (agent & ->).
  rewrite py_get_dict in Hget. inversion Hget; subst x.
  rewrite !py_get_dict. cbn [bind try_except ret].
  intros H _. injection H as Hitems.
  exists body, agent.
  split; [reflexivity | split; [exact Hl | now symmetry]].
Qed.

(** The theorem at a record named Bot1. *)
Lemma verified_record_from_lookup_witness :
  exists body agent,
    LookupAgentTool_execute
      (registry_world unverified_record_body
         (PyDict [("name", PyStr "Bot1"); ("isVerified", PyBool false)]))
      "So1anaWa11et"
    = inr (verbatim body)
    /\ json_loads
         (registry_world unverified_record_body
            (PyDict [("name", PyStr "Bot1"); ("isVerified", PyBool false)]))
         body
       = inr (PyDict agent)
    /\ dict_get "name" agent = PyStr "Bot1".
Proof.
  destruct (verified_record_from_lookup
              (registry_world unverified_record_body
                 (PyDict [("name", PyStr "Bot1"); ("isVerified", PyBool false)]))
              "So1anaWa11et" _ eq_refl eq_refl)
    as (body & agent & Hlookup & Hloads & Hitems).
  exists body, agent. split; [exact Hlookup | split; [exact Hloads |]].
  inversion Hitems. reflexivity.
Defined.

(** ** Descriptors *)

(** X22.  The six tools are exported once each and under six different
    names, so that a name selects one tool. *)
Theorem tool_names_unique :
  NoDup (map name SOLANA_TOOLS)
  /\ NoDup SOLANA_TOOLS
  /\ (forall t, In t SOLANA_TOOLS).
Proof.
  split; [| split].
  - repeat constructor; simpl; intuition discriminate.
  - repeat constructor; simpl; intuition discriminate.
  - intros []; simpl; tauto.
Qed.

(** X23.  Each tool's schema agrees with the signature of its [execute]:
    the schema is an object schema, its [properties] are the parameters of
    [execute] in order, each of type [string], and its [required] list holds
    exactly the parameters without a default; the identity tool takes none
    and its schema has no [required] entry. *)
Theorem schema_matches_signature (t : Tool) :
  (exists items,
      parameters t = PyDict items
      /\ dict_lookup "type" items = Some (PyStr "object"))
  /\ map fst (properties_of (parameters t)) = map fst (signature t)
  /\ required_of (parameters t) = mandatory (signature t)
  /\ Forall (fun p => exists text, snd p = string_property text)
            (properties_of (parameters t)).
Proof.
  destruct t; (split; [eexists; split; reflexivity |]);
    (split; [reflexivity |]); (split; [reflexivity |]);
    repeat constructor; eexists; reflexivity.
Qed.
